(** * mautrix-twitter: the per-account session supervisor ([user.py])

    A shallow embedding of [mautrix_twitter.user.User]: the two process-wide
    caches [by_mxid] and [by_twid], the connection lifecycle
    ([connect], [stop], [logout], [is_logged_in]), the database getters
    ([get_by_mxid], [get_by_twid], [all_logged_in]) and the message handler.

    Python objects live in stores indexed by allocation order, so that
    object identity ([is]) is equality of references.  Methods are
    computations in a state-and-exception monad: a raised exception keeps
    the mutations done before it, as in Python. *)

From stdpp Require Import gmap strings list fin_maps.

Local Open Scope Z_scope.

(** ** Python values and exceptions *)

Inductive exn :=
| KeyError (key : string)
| IndexError
| AttributeError (attr : string)
| RemoteError (msg : string).

Inductive Outcome (A : Type) :=
| Ok (a : A)
| Raise (e : exn).
Arguments Ok {A} a.
Arguments Raise {A} e.

(** What [is_logged_in] can return: [x and y] yields [x] itself when [x] is
    falsy, so the result is [None] or a [bool]. *)
Inductive pyval :=
| VNone
| VBool (b : bool).

Definition truthy (v : pyval) : bool :=
  match v with VNone => false | VBool b => b end.

(** Truth value of an [Optional[int]]: [None] and [0] are falsy. *)
Definition truthy_int (o : option Z) : bool :=
  match o with None => false | Some z => negb (z =? 0) end.

(** Truth value of an [Optional[str]]: [None] and the empty string are falsy. *)
Definition truthy_str (o : option string) : bool :=
  match o with None => false | Some s => negb (String.eqb s "") end.

(** [a or b] on optional strings. *)
Definition py_or (a b : option string) : option string :=
  if truthy_str a then a else b.

(** ** Data model *)

(** References to [User] objects and to [TwitterAPI] objects. *)
Definition uref := nat.
Definition cref := nat.

(** The persisted columns of a user ([DBUser]) other than its key [mxid],
    as [__init__] passes them on. *)
Record DBUser := mkDBUser {
  twid : option Z;
  auth_token : option string;
  csrf_token : option string;
  poll_cursor : option string;
  notice_room : option string
}.

Record User := mkUser {
  mxid : string;
  fields : DBUser;
  client : option cref;
  username : option string
}.

Inductive EventKind :=
| KConversation | KTwitterUser | KMessageEntry | KReactionCreateEntry | KReactionDeleteEntry.

Inductive Handler :=
| handle_conversation_update_m | handle_user_update_m | handle_message_m | handle_reaction_m.

(** The connection handle.  [handlers] holds bound methods: the handler and
    the [User] it is bound to. *)
Record TwitterAPI := mkTwitterAPI {
  log_name : string;
  node_id : Z;
  api_poll_cursor : option string;
  tokens : option string * option string;
  handlers : list (EventKind * (uref * Handler));
  running : bool
}.

Record TwitterUser := mkTwitterUser { user_id : Z; screen_name : string }.

Record Conversation := mkConversation { conv_id : string; conv_type : string }.

Record MessageEntry := mkMessageEntry {
  conversation_id : string;
  conversation : Conversation;
  message_data : string;
  request_id : string
}.

Record Portal := mkPortal {
  portal_twid : string;
  portal_receiver : option Z;
  portal_conv_type : string;
  portal_mxid : option string
}.

Record Puppet := mkPuppet { puppet_twid : option Z; is_real_user : bool }.

(** The awaited calls on the collaborators (remote client, portals,
    puppets), in order. *)
Inductive Call :=
| CGetUserIdentifier (c : cref)
| CGetSettings (c : cref)
| CLookupUsers (c : cref) (usernames : list string)
| CPortalGetByTwid (conv : string) (receiver : option Z) (ctype : string)
| CCreateMatrixRoom (p : Portal) (source : uref) (info : Conversation)
| CHandleTwitterMessage (p : Portal) (source : uref) (data : string) (req : string)
| CPortalUpdateInfo (p : Portal) (info : Conversation)
| CPuppetGetByTwid (t : option Z) (create : bool)
| CPuppetUpdateInfo (p : Puppet) (info : TwitterUser)
| CSwitchMxid (p : Puppet).

Section Bridge.

(** The state of everything outside this module (remote service, portal and
    puppet stores) is abstract; the collaborators are functions on it. *)
Context {Ext : Type}.

Definition Remote (A : Type) := Ext -> Outcome A * Ext.

Record World := mkWorld {
  hash : string -> Z;
  get_user_identifier : TwitterAPI -> Remote (option Z);
  get_settings : TwitterAPI -> Remote (gmap string string);
  lookup_users : TwitterAPI -> list string -> Remote (list TwitterUser);
  puppet_get_by_twid : option Z -> bool -> Remote (option Puppet);
  puppet_update_info : Puppet -> TwitterUser -> Remote unit;
  switch_mxid : Puppet -> Remote unit;
  portal_get_by_twid : string -> option Z -> string -> Remote Portal;
  portal_update_info : Portal -> Conversation -> Remote unit;
  create_matrix_room : Portal -> uref -> Conversation -> Remote unit;
  handle_twitter_message : Portal -> uref -> string -> string -> Remote unit
}.

Variable W : World.

Record State := mkState {
  users : list User;
  clients : list TwitterAPI;
  by_mxid : gmap string uref;
  by_twid : gmap Z uref;
  db : gmap string DBUser;
  ext : Ext;
  calls : list Call
}.

(** ** The state-and-exception monad *)

Definition M (A : Type) := State -> Outcome A * State.

Definition ret {A} (a : A) : M A := fun st => (Ok a, st).

Definition raise {A} (e : exn) : M A := fun st => (Raise e, st).

Definition bind {A B} (m : M A) (k : A -> M B) : M B :=
  fun st =>
    match m st with
    | (Ok a, st') => k a st'
    | (Raise e, st') => (Raise e, st')
    end.

(** [try: m  except Exception: h] *)
Definition try_except {A} (m : M A) (h : exn -> M A) : M A :=
  fun st =>
    match m st with
    | (Ok a, st') => (Ok a, st')
    | (Raise e, st') => h e st'
    end.

Notation "'let*' x ':=' m 'in' k" := (bind m (fun x => k))
  (at level 10, x name, m at level 100, k at level 200).
Notation "m ';;' k" := (bind m (fun _ => k))
  (at level 100, k at level 200, right associativity).

Definition when (b : bool) (m : M unit) : M unit := if b then m else ret tt.

Definition modify (f : State -> State) : M unit := fun st => (Ok tt, f st).

Definition set_users (us : list User) (st : State) : State :=
  mkState us (clients st) (by_mxid st) (by_twid st) (db st) (ext st) (calls st).
Definition set_clients (cs : list TwitterAPI) (st : State) : State :=
  mkState (users st) cs (by_mxid st) (by_twid st) (db st) (ext st) (calls st).
Definition set_by_mxid (m : gmap string uref) (st : State) : State :=
  mkState (users st) (clients st) m (by_twid st) (db st) (ext st) (calls st).
Definition set_by_twid (m : gmap Z uref) (st : State) : State :=
  mkState (users st) (clients st) (by_mxid st) m (db st) (ext st) (calls st).
Definition set_db (d : gmap string DBUser) (st : State) : State :=
  mkState (users st) (clients st) (by_mxid st) (by_twid st) d (ext st) (calls st).
Definition set_ext (x : Ext) (st : State) : State :=
  mkState (users st) (clients st) (by_mxid st) (by_twid st) (db st) x (calls st).
Definition log_call (c : Call) (st : State) : State :=
  mkState (users st) (clients st) (by_mxid st) (by_twid st) (db st) (ext st)
          (calls st ++ [c]).

(** An awaited call on a collaborator: recorded, then run on the outside
    state. *)
Definition remote {A} (r : Remote A) : M A :=
  fun st => let '(o, x) := r (ext st) in (o, set_ext x st).

Definition call {A} (c : Call) (r : Remote A) : M A :=
  modify (log_call c) ;; remote r.

(** Attribute access through a reference.  A reference always points into
    the store in a run of the program; the error case is there to keep the
    functions total. *)
Definition get_user (self : uref) : M User :=
  fun st =>
    match users st !! self with
    | Some u => (Ok u, st)
    | None => (Raise (AttributeError "self"), st)
    end.

Definition get_client (c : cref) : M TwitterAPI :=
  fun st =>
    match clients st !! c with
    | Some a => (Ok a, st)
    | None => (Raise (AttributeError "client"), st)
    end.

(** Attribute assignment through a reference. *)
Definition with_user (self : uref) (f : User -> User) : M unit :=
  let* u := get_user self in
  modify (fun st => set_users (<[self := f u]> (users st)) st).

Definition with_client (c : cref) (f : TwitterAPI -> TwitterAPI) : M unit :=
  let* a := get_client c in
  modify (fun st => set_clients (<[c := f a]> (clients st)) st).

Definition new_user (u : User) : M uref :=
  fun st => (Ok (length (users st)), set_users (users st ++ [u]) st).

Definition new_client (a : TwitterAPI) : M cref :=
  fun st => (Ok (length (clients st)), set_clients (clients st ++ [a]) st).

Definition set_fields (d : DBUser) (u : User) : User :=
  mkUser (mxid u) d (client u) (username u).
Definition set_client (c : option cref) (u : User) : User :=
  mkUser (mxid u) (fields u) c (username u).
Definition set_username (n : option string) (u : User) : User :=
  mkUser (mxid u) (fields u) (client u) n.
Definition set_twid (t : option Z) (d : DBUser) : DBUser :=
  mkDBUser t (auth_token d) (csrf_token d) (poll_cursor d) (notice_room d).

(** [User.__init__]: the columns as given, no client, no username. *)
Definition init_user (m : string) (d : DBUser) : User := mkUser m d None None.

(** [cls(mxid)]: every optional argument defaults to [None]. *)
Definition blank : DBUser := mkDBUser None None None None None.

(** ** Persistence ([DBUser], in [db/user.py]) *)

(** Modelled from the spec: the persistence delegate is not among the
    sources.  One record per Session, keyed uniquely by [local_id];
    saving writes the record under its key. *)
Definition db_save (m : string) (d : DBUser) : M unit :=
  modify (fun st => set_db (<[m := d]> (db st)) st).

(** Modelled from the spec: the persistence lookup by local id, which
    deserializes a fresh object when the record exists. *)
Definition db_get_by_mxid (m : string) : M (option uref) :=
  fun st =>
    match db st !! m with
    | Some d => (let* r := new_user (init_user m d) in ret (Some r)) st
    | None => (Ok None, st)
    end.

(** Modelled from the spec: the secondary index by [remote_id], a lookup
    among the persisted records for one bound to the given remote id. *)
Definition db_find_twid (t : Z) (d : gmap string DBUser) : option (string * DBUser) :=
  head (filter (fun kv => twid (snd kv) = Some t) (map_to_list d)).

Definition db_get_by_twid (t : Z) : M (option uref) :=
  fun st =>
    match db_find_twid t (db st) with
    | Some (m, d) => (let* r := new_user (init_user m d) in ret (Some r)) st
    | None => (Ok None, st)
    end.

(** Modelled from the spec: every persisted Session with non-empty
    credentials, each deserialized into a fresh object. *)
Definition has_credentials (d : DBUser) : bool :=
  truthy_str (auth_token d) && truthy_str (csrf_token d).

Fixpoint new_users (rows : list (string * DBUser)) : M (list uref) :=
  match rows with
  | [] => ret []
  | (m, d) :: rows' =>
      let* r := new_user (init_user m d) in
      let* rs := new_users rows' in
      ret (r :: rs)
  end.

Definition db_rows_logged_in (d : gmap string DBUser) : list (string * DBUser) :=
  filter (fun kv => has_credentials (snd kv) = true) (map_to_list d).

Definition db_all_logged_in : M (list uref) :=
  fun st => new_users (db_rows_logged_in (db st)) st.

(** ** Database getters of [User] *)

(** [_add_to_cache] *)
Definition add_to_cache (self : uref) : M unit :=
  let* u := get_user self in
  modify (fun st => set_by_mxid (<[mxid u := self]> (by_mxid st)) st) ;;
  when (truthy_int (twid (fields u)))
       (match twid (fields u) with
        | Some t => modify (fun st => set_by_twid (<[t := self]> (by_twid st)) st)
        | None => ret tt
        end).

(** [get_by_mxid].  [try: return cls.by_mxid[mxid]  except KeyError: pass]
    is the match on the lookup. *)
Definition get_by_mxid (m : string) (create : bool) : M (option uref) :=
  fun st =>
    match by_mxid st !! m with
    | Some r => (Ok (Some r), st)
    | None =>
        (let* user := db_get_by_mxid m in
         match user with
         | Some r => add_to_cache r ;; ret (Some r)
         | None =>
             if create then
               let* r := new_user (init_user m blank) in
               let* u := get_user r in
               db_save (mxid u) (fields u) ;;
               add_to_cache r ;;
               ret (Some r)
             else ret None
         end) st
    end.

(** [get_by_twid]: as [get_by_mxid], without the creation. *)
Definition get_by_twid (t : Z) : M (option uref) :=
  fun st =>
    match by_twid st !! t with
    | Some r => (Ok (Some r), st)
    | None =>
        (let* user := db_get_by_twid t in
         match user with
         | Some r => add_to_cache r ;; ret (Some r)
         | None => ret None
         end) st
    end.

(** [all_logged_in]: the loop over the freshly deserialized users, which
    replaces [users[index]] by the cached instance when there is one and
    caches the fresh one otherwise. *)
Fixpoint all_logged_in_loop (fresh : list uref) : M (list uref) :=
  match fresh with
  | [] => ret []
  | user :: rest =>
      let* u := get_user user in
      let* x := (fun st =>
                   match by_mxid st !! mxid u with
                   | Some cached => (Ok cached, st)
                   | None => (add_to_cache user ;; ret user) st
                   end) in
      let* xs := all_logged_in_loop rest in
      ret (x :: xs)
  end.

Definition all_logged_in : M (list uref) :=
  let* fresh := db_all_logged_in in
  all_logged_in_loop fresh.

(** ** Connection management *)

Definition set_api_poll_cursor (p : option string) (a : TwitterAPI) : TwitterAPI :=
  mkTwitterAPI (log_name a) (node_id a) p (tokens a) (handlers a) (running a).
Definition set_tokens (t : option string * option string) (a : TwitterAPI) : TwitterAPI :=
  mkTwitterAPI (log_name a) (node_id a) (api_poll_cursor a) t (handlers a) (running a).
Definition add_handler (k : EventKind) (h : uref * Handler) (a : TwitterAPI) : TwitterAPI :=
  mkTwitterAPI (log_name a) (node_id a) (api_poll_cursor a) (tokens a)
               (handlers a ++ [(k, h)]) (running a).
Definition set_running (b : bool) (a : TwitterAPI) : TwitterAPI :=
  mkTwitterAPI (log_name a) (node_id a) (api_poll_cursor a) (tokens a) (handlers a) b.

(** [TwitterAPI(log=..., loop=..., node_id=hash(self.mxid) % (2 ** 48))] *)
Definition TwitterAPI_init (m : string) : TwitterAPI :=
  mkTwitterAPI m (hash W m `mod` 2 ^ 48) None (None, None) [] false.

(** [self.client], for a method call on it. *)
Definition self_client (self : uref) : M cref :=
  let* u := get_user self in
  match client u with
  | Some c => ret c
  | None => raise (AttributeError "client")
  end.

(** The columns after [self.auth_token, self.csrf_token = self.client.tokens]
    and [self.poll_cursor = self.client.poll_cursor]. *)
Definition sync_from_client (a : TwitterAPI) (d : DBUser) : DBUser :=
  mkDBUser (twid d) (fst (tokens a)) (snd (tokens a)) (api_poll_cursor a)
           (notice_room d).

Definition update (self : uref) : M unit :=
  let* u := get_user self in
  match client u with
  | Some c =>
      let* a := get_client c in
      with_user self (fun u => set_fields (sync_from_client a (fields u)) u)
  | None => ret tt
  end ;;
  let* u := get_user self in
  db_save (mxid u) (fields u).

(** The handle as [connect] has configured it when it sends the initial
    ping: a new [TwitterAPI] with the stored cursor and the overridden or
    stored tokens. *)
Definition probe_client (u : User) (auth csrf : option string) : TwitterAPI :=
  set_tokens (py_or auth (auth_token (fields u)), py_or csrf (csrf_token (fields u)))
    (set_api_poll_cursor (poll_cursor (fields u)) (TwitterAPI_init (mxid u))).

Definition is_logged_in (self : uref) : M pyval :=
  try_except
    (let* u := get_user self in
     match client u with
     | None => ret VNone
     | Some c =>
         let* a := get_client c in
         let* r := call (CGetUserIdentifier c) (get_user_identifier W a) in
         ret (VBool (bool_decide (r <> None)))
     end)
    (fun _ => ret (VBool false)).

Definition connect (self : uref) (auth csrf : option string) : M unit :=
  let* u := get_user self in
  let* c := new_client (TwitterAPI_init (mxid u)) in
  with_client c (set_api_poll_cursor (poll_cursor (fields u))) ;;
  with_client c (set_tokens (py_or auth (auth_token (fields u)),
                             py_or csrf (csrf_token (fields u)))) ;;
  (* Initial ping to make sure auth works *)
  let* a := get_client c in
  let* _ := call (CGetUserIdentifier c) (get_user_identifier W a) in
  with_user self (set_client (Some c)) ;;
  let* sc := self_client self in
  with_client sc (add_handler KConversation (self, handle_conversation_update_m)) ;;
  with_client sc (add_handler KTwitterUser (self, handle_user_update_m)) ;;
  with_client sc (add_handler KMessageEntry (self, handle_message_m)) ;;
  with_client sc (add_handler KReactionCreateEntry (self, handle_reaction_m)) ;;
  with_client sc (add_handler KReactionDeleteEntry (self, handle_reaction_m)) ;;
  let* a := get_client sc in
  let* settings := call (CGetSettings sc) (get_settings W a) in
  let* name := match settings !! "screen_name"%string with
               | Some n => ret n
               | None => raise (KeyError "screen_name")
               end in
  with_user self (set_username (Some name)) ;;
  let* u := get_user self in
  when (negb (truthy_int (twid (fields u))))
       (let* a := get_client sc in
        let* user_info := call (CLookupUsers sc [name]) (lookup_users W a [name]) in
        match user_info with
        | [] => raise IndexError
        | first :: _ =>
            with_user self (fun u => set_fields (set_twid (Some (user_id first)) (fields u)) u) ;;
            modify (fun st => set_by_twid (<[user_id first := self]> (by_twid st)) st)
        end) ;;
  update self ;;
  with_client sc (set_running true).

Definition try_connect (self : uref) : M unit :=
  try_except (connect self None None) (fun _ => ret tt).

(** [init_cls].  The class attributes it sets ([config], [az], [loop]) are
    not part of the state; it returns the [try_connect] of every user
    that [all_logged_in] gives, none of them run yet. *)
Definition init_cls : M (list (M unit)) :=
  let* logged_in := all_logged_in in
  ret (try_connect <$> logged_in).

Definition stop (self : uref) : M unit :=
  let* u := get_user self in
  match client u with
  | Some c => with_client c (set_running false)
  | None => ret tt
  end ;;
  update self.

(** [del self.by_twid[self.twid]]: [KeyError] when the key is not there
    ([None] is never a key of [by_twid]). *)
Definition del_by_twid (t : option Z) : M unit :=
  fun st =>
    match t with
    | Some z =>
        match by_twid st !! z with
        | Some _ => (Ok tt, set_by_twid (delete z (by_twid st)) st)
        | None => (Raise (KeyError "twid"), st)
        end
    | None => (Raise (KeyError "None"), st)
    end.

(** [try: m  except KeyError: pass] *)
Definition except_KeyError_pass (m : M unit) : M unit :=
  fun st =>
    match m st with
    | (Raise (KeyError _), st') => (Ok tt, st')
    | r => r
    end.

Definition logged_out (d : DBUser) : DBUser :=
  mkDBUser None None None None (notice_room d).

Definition logout (self : uref) : M unit :=
  let* u := get_user self in
  match client u with
  | Some c => with_client c (set_running false)
  | None => ret tt
  end ;;
  let* puppet := call (CPuppetGetByTwid (twid (fields u)) false)
                      (puppet_get_by_twid W (twid (fields u)) false) in
  match puppet with
  | Some p => when (is_real_user p) (call (CSwitchMxid p) (switch_mxid W p))
  | None => ret tt
  end ;;
  except_KeyError_pass (del_by_twid (twid (fields u))) ;;
  with_user self (set_client None) ;;
  with_user self (fun u => set_fields (logged_out (fields u)) u) ;;
  update self.

(** ** Event handlers *)

Definition handle_conversation_update (self : uref) (evt : Conversation) : M unit :=
  let* u := get_user self in
  let* portal := call (CPortalGetByTwid (conv_id evt) (twid (fields u)) (conv_type evt))
                      (portal_get_by_twid W (conv_id evt) (twid (fields u)) (conv_type evt)) in
  call (CPortalUpdateInfo portal evt) (portal_update_info W portal evt).

Definition handle_user_update (self : uref) (user : TwitterUser) : M unit :=
  let* puppet := call (CPuppetGetByTwid (Some (user_id user)) true)
                      (puppet_get_by_twid W (Some (user_id user)) true) in
  match puppet with
  | Some p => call (CPuppetUpdateInfo p user) (puppet_update_info W p user)
  | None => raise (AttributeError "update_info")
  end.

Definition handle_message (self : uref) (evt : MessageEntry) : M unit :=
  let* u := get_user self in
  let* portal := call (CPortalGetByTwid (conversation_id evt) (twid (fields u))
                                        (conv_type (conversation evt)))
                      (portal_get_by_twid W (conversation_id evt) (twid (fields u))
                                          (conv_type (conversation evt))) in
  when (negb (truthy_str (portal_mxid portal)))
       (call (CCreateMatrixRoom portal self (conversation evt))
             (create_matrix_room W portal self (conversation evt))) ;;
  call (CHandleTwitterMessage portal self (message_data evt) (request_id evt))
       (handle_twitter_message W portal self (message_data evt) (request_id evt)).

Definition handle_reaction (self : uref) : M unit := ret tt.

(** ** Live handles *)

(** A handle is live for the user named [m] when it was made for that user
    (its logger is the child [m]) and its stream is running. *)
Definition is_live (st : State) (m : string) (c : cref) : bool :=
  match clients st !! c with
  | Some a => running a && bool_decide (log_name a = m)
  | None => false
  end.


Definition no_live (st : State) (m : string) : Prop :=
  forall c, is_live st m c = false.

(** The handle of a user, when it has one, is in the store. *)
Definition handle_ok (st : State) (u : User) : Prop :=
  match client u with
  | Some c => is_Some (clients st !! c)
  | None => True
  end.

(** What [_add_to_cache] establishes for a user. *)
Definition cached (st : State) (self : uref) (u : User) : Prop :=
  by_mxid st !! mxid u = Some self /\
  (forall t, twid (fields u) = Some t -> t <> 0 -> by_twid st !! t = Some self).

(** The handle as [connect] has it when it asks for the settings: the
    probed handle with the five handlers of the user. *)
Definition ready_client (self : uref) (u : User) (auth csrf : option string) : TwitterAPI :=
  add_handler KReactionDeleteEntry (self, handle_reaction_m)
    (add_handler KReactionCreateEntry (self, handle_reaction_m)
       (add_handler KMessageEntry (self, handle_message_m)
          (add_handler KTwitterUser (self, handle_user_update_m)
             (add_handler KConversation (self, handle_conversation_update_m)
                (probe_client u auth csrf))))).

(** ** The registry by local id *)

(** Every entry of [by_mxid] leads to a user in the store that has the key
    as its [mxid]. *)
Definition by_mxid_wf (st : State) : Prop :=
  forall m (r : uref), by_mxid st !! m = Some r ->
    exists u, users st !! r = Some u /\ mxid u = m.

(** From [st] to [st'] every user is still there under its reference, with
    its [mxid]. *)
Definition users_kept (st st' : State) : Prop :=
  forall (r : uref) u, users st !! r = Some u ->
    exists u', users st' !! r = Some u' /\ mxid u' = mxid u.

End Bridge.

Arguments set_users {Ext} us st /.
Arguments set_clients {Ext} cs st /.
Arguments set_by_mxid {Ext} m st /.
Arguments set_by_twid {Ext} m st /.
Arguments set_db {Ext} d st /.
Arguments set_ext {Ext} x st /.
Arguments log_call {Ext} c st /.
Arguments set_fields d u /.
Arguments set_client c u /.
Arguments set_username n u /.
Arguments set_twid t d /.
Arguments set_running b a /.
Arguments set_tokens t a /.
Arguments set_api_poll_cursor p a /.
Arguments add_handler k h a /.
Arguments sync_from_client a d /.
Arguments logged_out d /.
Arguments init_user m d /.
Arguments TwitterAPI_init {Ext} W m /.
Arguments probe_client {Ext} W u auth csrf /.
Arguments ready_client {Ext} W self u auth csrf /.

(** ** A concrete world

    The outside state is the list of conversations that have a room.  The
    remote service accepts the token ["good"] and knows the account
    [alice], number 555; every puppet is a real user, and releasing its
    binding works or not, as [release_ok] says. *)

Local Open Scope string_scope.

Definition room_of (conv : string) (rooms : list string) : option string :=
  if bool_decide (conv ∈ rooms) then Some ("!" ++ conv) else None.

Definition example_world (release_ok : bool) : @World (list string) := {|
  hash := fun s => Z.of_nat (String.length s);
  get_user_identifier := fun a x =>
    (match fst (tokens a) with
     | Some "good" => Ok (Some 555)
     | _ => Raise (RemoteError "auth")
     end, x);
  get_settings := fun a x => (Ok {[ "screen_name" := "alice" ]}, x);
  lookup_users := fun a names x => (Ok [mkTwitterUser 555 "alice"], x);
  puppet_get_by_twid := fun t create x =>
    (Ok (match t with Some _ => Some (mkPuppet t true) | None => None end), x);
  puppet_update_info := fun _ _ x => (Ok tt, x);
  switch_mxid := fun _ x =>
    (if release_ok then Ok tt else Raise (RemoteError "switch_mxid"), x);
  portal_get_by_twid := fun conv receiver ctype x =>
    (Ok (mkPortal conv receiver ctype (room_of conv x)), x);
  portal_update_info := fun _ _ x => (Ok tt, x);
  create_matrix_room := fun p _ _ x => (Ok tt, portal_twid p :: x);
  handle_twitter_message := fun _ _ _ _ x => (Ok tt, x)
|}.

(** The same world once the remote service rejects every token. *)
Definition expired_world : @World (list string) :=
  let w := example_world true in
  mkWorld (hash w) (fun _ x => (Raise (RemoteError "auth"), x))
          (get_settings w) (lookup_users w) (puppet_get_by_twid w) (puppet_update_info w)
          (switch_mxid w) (portal_get_by_twid w) (portal_update_info w)
          (create_matrix_room w) (handle_twitter_message w).

(** The same world with the puppet store out of reach. *)
Definition puppet_down_world : @World (list string) :=
  let w := example_world true in
  mkWorld (hash w) (get_user_identifier w) (get_settings w) (lookup_users w)
          (fun _ _ x => (Raise (RemoteError "puppet"), x)) (puppet_update_info w)
          (switch_mxid w) (portal_get_by_twid w) (portal_update_info w)
          (create_matrix_room w) (handle_twitter_message w).

(** The same world with settings that lack the screen name. *)
Definition no_name_world : @World (list string) :=
  let w := example_world true in
  mkWorld (hash w) (get_user_identifier w) (fun _ x => (Ok ∅, x)) (lookup_users w)
          (puppet_get_by_twid w) (puppet_update_info w)
          (switch_mxid w) (portal_get_by_twid w) (portal_update_info w)
          (create_matrix_room w) (handle_twitter_message w).

Definition empty_state : @State (list string) := mkState [] [] ∅ ∅ ∅ [] [].

(** [get_by_mxid("@u1:example.org")] on the empty state: one user, cached
    and persisted, not logged in. *)
Definition one_user : @State (list string) :=
  snd (get_by_mxid "@u1:example.org" true empty_state).

(** Then [connect("good", "csrf")]: user 0 is bound to 555 and has the
    running handle 0. *)
Definition connected : @State (list string) :=
  snd (connect (example_world true) 0%nat (Some "good") (Some "csrf") one_user).

(** A user whose stored remote id is 0. *)
Definition zero_bound : @State (list string) :=
  mkState [mkUser "@u1:example.org" (mkDBUser (Some 0) (Some "good") (Some "csrf") None None)
                  None None]
          [] {[ "@u1:example.org" := 0%nat ]} ∅
          {[ "@u1:example.org" := mkDBUser (Some 0) (Some "good") (Some "csrf") None None ]}
          [] [].

(** A new process over the database that [connected] leaves: nothing is
    cached yet. *)
Definition restarted : @State (list string) :=
  mkState [] [] ∅ ∅ (db connected) [] [].

(** [connected] with a second user, which claims the remote id 555 as well
    while [by_twid] has the first user for it. *)
Definition shared_remote_id : @State (list string) :=
  mkState (users connected ++
             [mkUser "@u2:example.org" (mkDBUser (Some 555) (Some "good") (Some "csrf") None None)
                     None None])
          (clients connected)
          (<["@u2:example.org" := 1%nat]> (by_mxid connected))
          (by_twid connected) (db connected) [] [].

(** [connected], then a second user is made by [get_by_mxid] and logs in
    to the same account: both users and both records have the remote id
    555, and [by_twid] has the second user for it. *)
Definition two_bound : @State (list string) :=
  snd (connect (example_world true) 1%nat (Some "good") (Some "csrf")
         (snd (get_by_mxid "@u2:example.org" true connected))).

Definition example_message : MessageEntry :=
  mkMessageEntry "C1" (mkConversation "C1" "ONE_TO_ONE") "hello" "r1".

(** The users and the puppet of these states, written out. *)
Definition connected_user : User :=
  mkUser "@u1:example.org" (mkDBUser (Some 555) (Some "good") (Some "csrf") None None)
         (Some 0%nat) (Some "alice").

Definition fresh_user : User := mkUser "@u1:example.org" blank None None.

Definition zero_user : User :=
  mkUser "@u1:example.org" (mkDBUser (Some 0) (Some "good") (Some "csrf") None None)
         None None.

Definition puppet_555 : Puppet := mkPuppet (Some 555) true.

Local Close Scope string_scope.

(** ** Four readings of the lifecycle that the code does not have

    Each is stated at one call, so that it can be tested on a state. *)

(** [logout] clears the account whatever the release of the puppet binding
    does: with a real-user puppet bound, the [by_twid] entry is gone, the
    user is cleared and the cleared record is saved. *)
Definition logout_release_fails_soft {Ext} (W : @World Ext) (self : uref) (st : State) : Prop :=
  forall u p x1 t,
    users st !! self = Some u ->
    twid (fields u) = Some t ->
    puppet_get_by_twid W (twid (fields u)) false (ext st) = (Ok (Some p), x1) ->
    is_real_user p = true ->
    by_twid (snd (logout W self st)) !! t = None /\
    users (snd (logout W self st)) !! self =
      Some (mkUser (mxid u) (logged_out (fields u)) None (username u)) /\
    db (snd (logout W self st)) !! mxid u = Some (logged_out (fields u)).

(** [stop] leaves the user without a handle. *)
Definition stop_clears_handle {Ext} (self : uref) (st : @State Ext) : Prop :=
  forall u c,
    users st !! self = Some u ->
    client u = Some c ->
    exists u', users (snd (stop self st)) !! self = Some u' /\ client u' = None.


(** [connect] keeps a remote id that is already bound. *)
Definition connect_keeps_bound_remote_id {Ext} (W : @World Ext) (self : uref)
    (auth csrf : option string) (st : State) : Prop :=
  forall u t,
    users st !! self = Some u ->
    twid (fields u) = Some t ->
    fst (connect W self auth csrf st) = Ok tt ->
    exists u', users (snd (connect W self auth csrf st)) !! self = Some u' /\
               twid (fields u') = Some t.

(** * Properties *)

(** After a [connect] that returns, [get_by_twid] of the remote id and
    [get_by_mxid] of the local id give one and the same user. *)
Definition connect_resolves_to_same_object {Ext} (W : @World Ext) (self : uref)
    (auth csrf : option string) (st : State) : Prop :=
  forall u,
    users st !! self = Some u ->
    fst (connect W self auth csrf st) = Ok tt ->
    exists u' t (o : uref),
      users (snd (connect W self auth csrf st)) !! self = Some u' /\
      twid (fields u') = Some t /\
      fst (get_by_twid t (snd (connect W self auth csrf st))) = Ok (Some o) /\
      fst (get_by_mxid (mxid u) true (snd (connect W self auth csrf st))) = Ok (Some o).

(** After a [logout] that returns, on a user bound to a remote id,
    [is_logged_in] is falsy and [get_by_twid] of that id finds nothing. *)
Definition logout_then_remote_not_found {Ext} (W : @World Ext) (self : uref)
    (st : State) : Prop :=
  forall u r,
    users st !! self = Some u ->
    twid (fields u) = Some r ->
    fst (logout W self st) = Ok tt ->
    (exists v, fst (is_logged_in W self (snd (logout W self st))) = Ok v /\
               truthy v = false) /\
    fst (get_by_twid r (snd (logout W self st))) = Ok None.

(** ** A [connect] that stops half way

    [connect] raises [e]; the user is left holding the new handle, which
    is not running; its columns, both registries and the database are as
    before. *)
Definition left_with_idle_handle {Ext} (W : @World Ext) (self : uref)
    (auth csrf : option string) (st : State) (u : User) (e : exn) : Prop :=
  fst (connect W self auth csrf st) = Raise e /\
  db (snd (connect W self auth csrf st)) = db st /\
  by_twid (snd (connect W self auth csrf st)) = by_twid st /\
  by_mxid (snd (connect W self auth csrf st)) = by_mxid st /\
  (exists u', users (snd (connect W self auth csrf st)) = <[self := u']> (users st) /\
              fields u' = fields u /\ mxid u' = mxid u /\
              client u' = Some (length (clients st))) /\
  is_live (snd (connect W self auth csrf st)) (mxid u) (length (clients st)) = false.

Section Proofs.

Context {Ext : Type} (W : @World Ext).
Implicit Types (st : @State Ext) (u : User) (self : uref) (c : cref).

(** ** Stores *)

Lemma lookup_snoc {A} (l : list A) (x : A) : (l ++ [x]) !! length l = Some x.
Proof. by apply list_lookup_middle. Qed.

Lemma insert_snoc {A} (l : list A) (x y : A) : <[length l := y]> (l ++ [x]) = l ++ [y].
Proof. rewrite insert_app_r_alt by lia. by rewrite Nat.sub_diag. Qed.

Lemma lookup_insert_hit {A} (l : list A) (i : nat) (x y : A) :
  l !! i = Some x -> <[i := y]> l !! i = Some y.
Proof. intros H. apply list_lookup_insert_eq. by eapply lookup_lt_Some. Qed.

(** ** Running a computation step by step *)

Lemma bind_ret {A B} (a : A) (k : A -> M B) st : bind (ret a) k st = k a st.
Proof. reflexivity. Qed.

Lemma bind_raise {A B} (e : exn) (k : A -> M B) st : bind (raise e) k st = (Raise e, st).
Proof. reflexivity. Qed.

Lemma bind_modify {B} (f : State -> State) (k : unit -> M B) st :
  bind (modify f) k st = k tt (f st).
Proof. reflexivity. Qed.

Lemma bind_bind {A B C} (m : M A) (k : A -> M B) (h : B -> M C) st :
  bind (bind m k) h st = bind m (fun a => bind (k a) h) st.
Proof. unfold bind. destruct (m st) as [[a|e] st']; reflexivity. Qed.

Lemma bind_ok {A B} (m : M A) (k : A -> M B) st (a : A) st' :
  m st = (Ok a, st') -> bind m k st = k a st'.
Proof. intros H. unfold bind. by rewrite H. Qed.

Lemma bind_get_user {B} self (k : User -> M B) st u :
  users st !! self = Some u -> bind (get_user self) k st = k u st.
Proof. intros H. unfold bind, get_user. by rewrite H. Qed.

Lemma bind_get_client {B} c (k : TwitterAPI -> M B) st (a : TwitterAPI) :
  clients st !! c = Some a -> bind (get_client c) k st = k a st.
Proof. intros H. unfold bind, get_client. by rewrite H. Qed.

Lemma bind_get_client_case {B} c (k : TwitterAPI -> M B) st :
  bind (get_client c) k st =
  match clients st !! c with
  | Some a => k a st
  | None => (Raise (AttributeError "client"), st)
  end.
Proof. unfold bind, get_client. by destruct (clients st !! c). Qed.

Lemma bind_new_client {B} (a : TwitterAPI) (k : cref -> M B) st :
  bind (new_client a) k st = k (length (clients st)) (set_clients (clients st ++ [a]) st).
Proof. reflexivity. Qed.

Lemma bind_new_user {B} u (k : uref -> M B) st :
  bind (new_user u) k st = k (length (users st)) (set_users (users st ++ [u]) st).
Proof. reflexivity. Qed.

Lemma bind_call {A B} (c : Call) (r : Remote A) (k : A -> M B) st :
  bind (call c r) k st =
  match r (ext st) with
  | (Ok a, x) => k a (set_ext x (log_call c st))
  | (Raise e, x) => (Raise e, set_ext x (log_call c st))
  end.
Proof. unfold call, bind, modify, remote. cbn. by destruct (r (ext st)) as [[a|e] x]. Qed.

Lemma call_eq {A} (c : Call) (r : Remote A) st :
  call c r st = (fst (r (ext st)), set_ext (snd (r (ext st))) (log_call c st)).
Proof. unfold call, bind, modify, remote. cbn. by destruct (r (ext st)) as [[a|e] x]. Qed.

Ltac sred :=
  cbn [set_users set_clients set_by_mxid set_by_twid set_db set_ext log_call
       users clients by_mxid by_twid db ext calls fst snd
       mxid fields client username set_client set_fields set_username
       twid auth_token csrf_token poll_cursor notice_room set_twid logged_out
       sync_from_client init_user
       log_name node_id api_poll_cursor tokens handlers running
       set_running set_tokens set_api_poll_cursor add_handler TwitterAPI_init].

Ltac slook Hu :=
  sred;
  first [ exact Hu | eassumption | apply lookup_snoc
        | apply (lookup_insert_hit _ _ _ _ Hu)
        | (eapply lookup_insert_hit; eassumption) ].

Ltac mstep Hu :=
  first
    [ rewrite bind_bind
    | rewrite bind_ret
    | rewrite bind_raise
    | rewrite bind_modify
    | rewrite bind_new_client
    | rewrite bind_new_user
    | erewrite bind_get_user by slook Hu
    | erewrite bind_get_client by slook Hu
    | rewrite bind_get_client_case ];
  sred; rewrite ?insert_snoc, ?list_insert_insert_eq.

Ltac mcall :=
  rewrite bind_call; sred;
  match goal with
  | |- context [match ?r ?x with _ => _ end] =>
      let E := fresh "E" in destruct (r x) as [[?|?] ?] eqn:E
  end; sred.

Ltac mone Hu :=
  first
    [ mstep Hu
    | mcall
    | match goal with
      | |- context [match ?m !! ?k with _ => _ end] =>
          let E := fresh "E" in destruct (m !! k) eqn:E
      | |- context [when ?b _] => let E := fresh "E" in unfold when; destruct b eqn:E
      | |- context [match ?l with [] => _ | _ :: _ => _ end] => is_var l; destruct l
      | |- context [match ?o with Some _ => _ | None => _ end] =>
          let E := fresh "E" in destruct o eqn:E
      end ].

Ltac mfinish :=
  unfold modify, ret, raise; sred; rewrite ?insert_snoc, ?list_insert_insert_eq.

Ltac mexec Hu := repeat mone Hu; mfinish.

Ltac mstart st Hu :=
  destruct st as [us cs bm bt d x cl]; cbn in Hu |- *.

(** ** [connect]: a failing probe *)


(** ** [is_logged_in] *)

Lemma is_logged_in_no_client self st u :
  users st !! self = Some u -> client u = None ->
  is_logged_in W self st = (Ok VNone, st).
Proof.
  intros Hu Hc. unfold is_logged_in, try_except.
  erewrite bind_get_user by eassumption. by rewrite Hc.
Qed.

(** C10. Without a handle [is_logged_in] returns [None], which is not the
    boolean [False]; it never raises; and a probe that raises gives
    [False]. *)
Theorem is_logged_in_none_and_never_raises self st :
  (forall u, users st !! self = Some u -> client u = None ->
     is_logged_in W self st = (Ok VNone, st)) /\
  VNone <> VBool false /\
  (exists v, fst (is_logged_in W self st) = Ok v) /\
  (forall u c a e, users st !! self = Some u -> client u = Some c ->
     clients st !! c = Some a ->
     fst (get_user_identifier W a (ext st)) = Raise e ->
     fst (is_logged_in W self st) = Ok (VBool false)).
Proof.
  split; [|split; [done|split]].
  - apply is_logged_in_no_client.
  - unfold is_logged_in, try_except.
    destruct (bind (get_user self) _ st) as [[v|e] st']; cbn; eauto.
  - intros u c a e Hu Hc Ha Hp. unfold is_logged_in, try_except.
    erewrite bind_get_user by eassumption. rewrite Hc.
    erewrite bind_get_client by eassumption.
    rewrite bind_call. destruct (get_user_identifier W a (ext st)) as [[r|e'] x'];
      cbn in Hp; [done|]. reflexivity.
Qed.

(** ** [get_by_mxid] *)

Lemma db_get_by_mxid_some {B} m (k : option uref -> M B) st (d : DBUser) :
  db st !! m = Some d ->
  bind (db_get_by_mxid m) k st =
    k (Some (length (users st))) (set_users (users st ++ [init_user m d]) st).
Proof. intros H. unfold bind at 1, db_get_by_mxid. rewrite H. reflexivity. Qed.

Lemma db_get_by_mxid_none {B} m (k : option uref -> M B) st :
  db st !! m = None -> bind (db_get_by_mxid m) k st = k None st.
Proof. intros H. unfold bind at 1, db_get_by_mxid. rewrite H. reflexivity. Qed.

(** C6. [get_by_mxid]: a cached user is returned as it is; otherwise a
    persisted one is deserialized, cached and returned; otherwise, with
    [create], a new one is constructed, persisted, cached and returned,
    and without it the result is [None].  A second call returns the very
    object the first one returned. *)
Theorem get_by_mxid_returns_identical_object m create st :
  (forall r, by_mxid st !! m = Some r -> get_by_mxid m create st = (Ok (Some r), st)) /\
  (forall d, by_mxid st !! m = None -> db st !! m = Some d ->
     fst (get_by_mxid m create st) = Ok (Some (length (users st))) /\
     users (snd (get_by_mxid m create st)) = users st ++ [init_user m d] /\
     by_mxid (snd (get_by_mxid m create st)) = <[m := length (users st)]> (by_mxid st) /\
     db (snd (get_by_mxid m create st)) = db st) /\
  (by_mxid st !! m = None -> db st !! m = None -> create = true ->
     fst (get_by_mxid m create st) = Ok (Some (length (users st))) /\
     users (snd (get_by_mxid m create st)) = users st ++ [init_user m blank] /\
     by_mxid (snd (get_by_mxid m create st)) = <[m := length (users st)]> (by_mxid st) /\
     db (snd (get_by_mxid m create st)) = <[m := blank]> (db st)) /\
  (by_mxid st !! m = None -> db st !! m = None -> create = false ->
     get_by_mxid m create st = (Ok None, st)) /\
  (forall r create', fst (get_by_mxid m create st) = Ok (Some r) ->
     get_by_mxid m create' (snd (get_by_mxid m create st)) =
       (Ok (Some r), snd (get_by_mxid m create st))).
Proof.
  assert (Hload : forall d, by_mxid st !! m = None -> db st !! m = Some d ->
     fst (get_by_mxid m create st) = Ok (Some (length (users st))) /\
     users (snd (get_by_mxid m create st)) = users st ++ [init_user m d] /\
     by_mxid (snd (get_by_mxid m create st)) = <[m := length (users st)]> (by_mxid st) /\
     db (snd (get_by_mxid m create st)) = db st).
  { intros d Hc Hd. unfold get_by_mxid. rewrite Hc.
    rewrite (db_get_by_mxid_some _ _ _ _ Hd).
    destruct st as [us cs bm bt db0 x cl]. unfold add_to_cache.
    mexec Hc; done. }
  assert (Hnew : by_mxid st !! m = None -> db st !! m = None -> create = true ->
     fst (get_by_mxid m create st) = Ok (Some (length (users st))) /\
     users (snd (get_by_mxid m create st)) = users st ++ [init_user m blank] /\
     by_mxid (snd (get_by_mxid m create st)) = <[m := length (users st)]> (by_mxid st) /\
     db (snd (get_by_mxid m create st)) = <[m := blank]> (db st)).
  { intros Hc Hd ->. unfold get_by_mxid. rewrite Hc.
    rewrite (db_get_by_mxid_none _ _ _ Hd).
    destruct st as [us cs bm bt db0 x cl]. unfold add_to_cache, db_save.
    mexec Hc; done. }
  assert (Hnone : by_mxid st !! m = None -> db st !! m = None -> create = false ->
     get_by_mxid m create st = (Ok None, st)).
  { intros Hc Hd ->. unfold get_by_mxid. rewrite Hc.
    by rewrite (db_get_by_mxid_none _ _ _ Hd). }
  split; [|split; [exact Hload|split; [exact Hnew|split; [exact Hnone|]]]].
  - intros r Hr. unfold get_by_mxid. by rewrite Hr.
  - intros r create' Hr.
    assert (by_mxid (snd (get_by_mxid m create st)) !! m = Some r) as Hhit.
    { destruct (by_mxid st !! m) as [r0|] eqn:Hc.
      - unfold get_by_mxid in *. rewrite Hc in *. cbn in *. congruence.
      - destruct (db st !! m) as [d|] eqn:Hd.
        + destruct (Hload d eq_refl eq_refl) as (H1 & _ & H3 & _).
          rewrite H3, lookup_insert_eq. congruence.
        + destruct create.
          * destruct Hnew as (H1 & _ & H3 & _); try done.
            rewrite H3, lookup_insert_eq. congruence.
          * rewrite Hnone in Hr by done. done. }
    unfold get_by_mxid at 1. by rewrite Hhit.
Qed.

(** ** [all_logged_in] *)

Lemma new_users_spec (rows : list (string * DBUser)) st :
  new_users rows st =
    (Ok (seq (length (users st)) (length rows)),
     set_users (users st ++ ((fun kv => init_user (fst kv) (snd kv)) <$> rows)) st).
Proof.
  revert st. induction rows as [|[m d] rows IH]; intros st.
  - destruct st. cbn. by rewrite app_nil_r.
  - cbn [new_users]. rewrite bind_new_user.
    erewrite bind_ok by apply IH. destruct st as [us cs bm bt db0 x cl]. cbn.
    rewrite length_app, <- app_assoc. cbn. by rewrite Nat.add_1_r.
Qed.

Lemma add_to_cache_spec self st u :
  users st !! self = Some u ->
  exists bt', add_to_cache self st =
    (Ok tt, set_by_twid bt' (set_by_mxid (<[mxid u := self]> (by_mxid st)) st)).
Proof.
  intros Hu. destruct st as [us cs bm bt db0 x cl]. cbn in Hu.
  unfold add_to_cache. mexec Hu; eauto.
Qed.

Lemma all_logged_in_loop_spec (fresh : list uref) st :
  (forall x, x ∈ fresh -> is_Some (users st !! x)) ->
  exists res st',
    all_logged_in_loop fresh st = (Ok res, st') /\
    users st' = users st /\
    by_mxid st ⊆ by_mxid st' /\
    length res = length fresh /\
    forall i x u, fresh !! i = Some x -> users st !! x = Some u ->
      exists y : uref, res !! i = Some y /\
        by_mxid st' !! mxid u = Some y /\
        (forall r : uref, by_mxid st !! mxid u = Some r -> y = r) /\
        (by_mxid st !! mxid u = None -> y ∈ fresh).
Proof.
  revert st. induction fresh as [|user rest IH]; intros st Hdom.
  - exists [], st. cbn. repeat split; done || (intros i x u Hi; by destruct i).
  - destruct (Hdom user) as [u0 Hu0]; [left|].
    cbn [all_logged_in_loop]. rewrite (bind_get_user _ _ _ _ Hu0).
    destruct (by_mxid st !! mxid u0) as [cached|] eqn:Hc.
    + destruct (IH st) as (res & st' & Hrun & Hus & Hsub & Hlen & Hres).
      { intros x Hx. apply Hdom. by right. }
      exists (cached :: res), st'. split; [|split; [done|split; [done|split]]].
      * unfold bind at 1. rewrite Hc. erewrite bind_ok by apply Hrun. done.
      * cbn. by rewrite Hlen.
      * intros [|i] x u Hi Hu; cbn in Hi.
        -- injection Hi as <-. assert (u = u0) as -> by congruence.
           exists cached. repeat split; try done.
           ++ by eapply lookup_weaken.
           ++ intros; congruence.
           ++ intros; congruence.
        -- destruct (Hres i x u Hi Hu) as (y & ? & ? & ? & Hy).
           exists y. repeat split; try done. intros Hn. right. by apply Hy.
    + destruct (add_to_cache_spec _ _ _ Hu0) as (bt' & Hadd).
      set (st1 := set_by_twid bt' (set_by_mxid (<[mxid u0 := user]> (by_mxid st)) st)) in *.
      assert (users st1 = users st) as Hus1 by (by destruct st).
      assert (by_mxid st1 = <[mxid u0 := user]> (by_mxid st)) as Hbm1 by (by destruct st).
      destruct (IH st1) as (res & st' & Hrun & Hus & Hsub & Hlen & Hres).
      { intros x Hx. rewrite Hus1. apply Hdom. by right. }
      exists (user :: res), st'. split; [|split; [congruence|split; [|split]]].
      * unfold bind at 1. rewrite Hc.
        erewrite bind_ok by apply Hadd. cbn [ret].
        erewrite bind_ok by apply Hrun. done.
      * etrans; [|exact Hsub]. rewrite Hbm1. by apply insert_subseteq.
      * cbn. by rewrite Hlen.
      * intros [|i] x u Hi Hu; cbn in Hi.
        -- injection Hi as <-. assert (u = u0) as -> by congruence.
           exists user. repeat split; try done.
           ++ eapply lookup_weaken; [|exact Hsub]. by rewrite Hbm1, lookup_insert_eq.
           ++ intros; congruence.
           ++ intros _. left.
        -- rewrite <- Hus1 in Hu.
           destruct (Hres i x u Hi Hu) as (y & ? & ? & Hy1 & Hy2).
           exists y. repeat split; try done.
           ++ intros c Hcu. apply Hy1. rewrite Hbm1.
              eapply lookup_weaken; [exact Hcu|]. by apply insert_subseteq.
           ++ intros Hn. destruct (by_mxid st1 !! mxid u) as [c|] eqn:Hc1.
              ** rewrite (Hy1 c eq_refl). rewrite Hbm1 in Hc1.
                 apply lookup_insert_Some in Hc1 as [[_ <-]|[_ Hc1]]; [left|congruence].
              ** right. by apply Hy2.
Qed.

(** C9. [all_logged_in] returns one user for each persisted record with
    credentials.  Where [by_mxid] already had an instance for the record's
    [mxid], the element is that instance; where it had none, the element
    is an object made by this call.  Either way the element is the one
    [by_mxid] holds afterwards, and no entry [by_mxid] had is replaced. *)
Theorem all_logged_in_prefers_cached st :
  exists res,
    fst (all_logged_in st) = Ok res /\
    length res = length (db_rows_logged_in (db st)) /\
    (forall m (r : uref), by_mxid st !! m = Some r ->
       by_mxid (snd (all_logged_in st)) !! m = Some r) /\
    (forall i m d, db_rows_logged_in (db st) !! i = Some (m, d) ->
       exists y : uref, res !! i = Some y /\
         by_mxid (snd (all_logged_in st)) !! m = Some y /\
         (forall r : uref, by_mxid st !! m = Some r -> y = r) /\
         (by_mxid st !! m = None -> (length (users st) <= y)%nat)).
Proof.
  unfold all_logged_in, db_all_logged_in.
  set (rows := db_rows_logged_in (db st)).
  set (st0 := set_users (users st ++ ((fun kv => init_user (fst kv) (snd kv)) <$> rows)) st).
  assert (Hus0 : users st0 = users st ++ ((fun kv => init_user (fst kv) (snd kv)) <$> rows))
    by (by destruct st).
  assert (Hbm0 : by_mxid st0 = by_mxid st) by (by destruct st).
  assert (Hfresh : forall i m d, rows !! i = Some (m, d) ->
            seq (length (users st)) (length rows) !! i = Some (length (users st) + i)%nat /\
            users st0 !! (length (users st) + i)%nat = Some (init_user m d)).
  { intros i m d Hi. split.
    - apply lookup_seq. split; [done|]. by eapply lookup_lt_Some.
    - rewrite Hus0, lookup_app_r by lia.
      replace (length (users st) + i - length (users st))%nat with i by lia.
      by rewrite list_lookup_fmap, Hi. }
  destruct (all_logged_in_loop_spec (seq (length (users st)) (length rows)) st0)
    as (res & st' & Hrun & Hus & Hsub & Hlen & Hres).
  { intros x Hx. apply elem_of_seq in Hx. apply lookup_lt_is_Some.
    rewrite Hus0, length_app, length_fmap. lia. }
  erewrite bind_ok by apply new_users_spec. fold rows st0. rewrite Hrun. cbn [fst snd].
  exists res. split; [done|split; [|split]].
  - by rewrite Hlen, length_seq.
  - intros m c Hc. eapply lookup_weaken; [|exact Hsub]. by rewrite Hbm0.
  - intros i m d Hi. destruct (Hfresh i m d Hi) as [Hs Hu].
    destruct (Hres _ _ _ Hs Hu) as (y & Hy & Hby & Hc & Hn). cbn [mxid init_user] in Hby, Hc, Hn.
    rewrite Hbm0 in Hc, Hn.
    exists y. repeat split; try done.
    intros Hnone. apply Hn, elem_of_seq in Hnone. lia.
Qed.

(** ** [stop] *)

Lemma stop_no_client self st u :
  users st !! self = Some u -> client u = None ->
  stop self st = (Ok tt, set_db (<[mxid u := fields u]> (db st)) st).
Proof.
  intros Hu Hc. mstart st Hu.
  unfold stop, update, db_save. mstep Hu. rewrite Hc.
  repeat mstep Hu. rewrite ?Hc. repeat mstep Hu. sred. rewrite ?Hc. reflexivity.
Qed.

Lemma stop_client self st u c (a : TwitterAPI) :
  users st !! self = Some u -> client u = Some c -> clients st !! c = Some a ->
  stop self st =
    (Ok tt,
     set_db (<[mxid u := sync_from_client a (fields u)]> (db st))
       (set_users (<[self := set_fields (sync_from_client a (fields u)) u]> (users st))
          (set_clients (<[c := set_running false a]> (clients st)) st))).
Proof.
  intros Hu Hc Ha. mstart st Hu. cbn in Ha.
  unfold stop, update, db_save, with_client, with_user.
  mstep Hu. rewrite Hc.
  repeat mstep Hu. rewrite ?Hc. repeat mstep Hu. sred. rewrite ?Hc. reflexivity.
Qed.

(** C2, as the code has it.  [stop] stops the stream of the handle and
    leaves the handle in place; it copies the tokens and the cursor of the
    handle into the user and saves that record.  Without a handle it saves
    the record as it is and touches nothing else.  A second [stop] changes
    nothing. *)
Theorem stop_keeps_handle_and_is_idempotent self st u :
  users st !! self = Some u -> handle_ok st u ->
  fst (stop self st) = Ok tt /\
  (exists u', users (snd (stop self st)) !! self = Some u' /\ client u' = client u) /\
  (client u = None ->
     snd (stop self st) = set_db (<[mxid u := fields u]> (db st)) st) /\
  (forall c a, client u = Some c -> clients st !! c = Some a ->
     clients (snd (stop self st)) = <[c := set_running false a]> (clients st) /\
     users (snd (stop self st)) =
       <[self := set_fields (sync_from_client a (fields u)) u]> (users st) /\
     db (snd (stop self st)) = <[mxid u := sync_from_client a (fields u)]> (db st)) /\
  stop self (snd (stop self st)) = (Ok tt, snd (stop self st)).
Proof.
  intros Hu Hok. unfold handle_ok in Hok.
  destruct (client u) as [c|] eqn:Hc.
  - destruct Hok as [a Ha]. rewrite (stop_client _ _ _ _ _ Hu Hc Ha).
    mstart st Hu. cbn in Ha.
    split; [done|split; [|split; [done|split]]].
    + eexists. split; [by apply (lookup_insert_hit _ _ _ _ Hu)|done].
    + intros c' a' Hc' Ha'. simplify_eq. done.
    + erewrite stop_client; cycle 1.
      * sred. by apply (lookup_insert_hit _ _ _ _ Hu).
      * done.
      * sred. by apply (lookup_insert_hit _ _ _ _ Ha).
      * sred. rewrite !list_insert_insert_eq, insert_insert_eq. reflexivity.
  - rewrite (stop_no_client _ _ _ Hu Hc). mstart st Hu.
    split; [done|split; [eauto|split; [done|split; [done|]]]].
    erewrite stop_no_client by (sred; eassumption).
    sred. by rewrite insert_insert_eq.
Qed.

(** ** [logout] *)

Lemma bind_del_by_twid {B} (t : option Z) (k : unit -> M B) st :
  bind (except_KeyError_pass (del_by_twid t)) k st =
  k tt (set_by_twid (match t with
                     | Some z => delete z (by_twid st)
                     | None => by_twid st
                     end) st).
Proof.
  destruct st as [us cs bm bt d x cl]. unfold bind, except_KeyError_pass, del_by_twid.
  destruct t as [z|]; sred; [|done].
  destruct (bt !! z) eqn:E; sred; [done|]. by rewrite delete_id.
Qed.

Ltac same_lhs :=
  repeat match goal with
         | H : ?t = _, H' : ?t = _ |- _ => rewrite H in H'; simplify_eq
         end.

Ltac mlogout Hu :=
  unfold logout, update, db_save, with_client, with_user;
  repeat first [ rewrite bind_del_by_twid; sred | mone Hu ]; mfinish.

Lemma logout_ok_inv self st u :
  users st !! self = Some u ->
  fst (logout W self st) = Ok tt ->
  users (snd (logout W self st)) !! self =
    Some (mkUser (mxid u) (logged_out (fields u)) None (username u)) /\
  by_twid (snd (logout W self st)) =
    match twid (fields u) with
    | Some t => delete t (by_twid st)
    | None => by_twid st
    end /\
  db (snd (logout W self st)) = <[mxid u := logged_out (fields u)]> (db st).
Proof.
  intros Hu. mstart st Hu. mlogout Hu; intros Hok; try done.
  all: split; [by apply (lookup_insert_hit _ _ _ _ Hu)|done].
Qed.

(** C1, as the code has it.  With a real-user puppet bound to the account,
    [logout] asks the puppet to release the binding.  When that call
    returns, [logout] goes on: it removes the [by_twid] entry, clears the
    handle, the remote id, the tokens and the cursor, and saves the cleared
    record.  When that call raises, the error leaves [logout] at once: the
    handle has been stopped, and the [by_twid] entry, the user and the
    database are as they were. *)
Theorem logout_release_then_clear_or_propagate self st u (p : Puppet) (x1 : Ext) :
  users st !! self = Some u -> handle_ok st u ->
  puppet_get_by_twid W (twid (fields u)) false (ext st) = (Ok (Some p), x1) ->
  is_real_user p = true ->
  In (CSwitchMxid p) (calls (snd (logout W self st))) /\
  (forall x2, switch_mxid W p x1 = (Ok tt, x2) ->
     fst (logout W self st) = Ok tt /\
     by_twid (snd (logout W self st)) =
       match twid (fields u) with
       | Some t => delete t (by_twid st)
       | None => by_twid st
       end /\
     users (snd (logout W self st)) !! self =
       Some (mkUser (mxid u) (logged_out (fields u)) None (username u)) /\
     db (snd (logout W self st)) = <[mxid u := logged_out (fields u)]> (db st)) /\
  (forall e x2, switch_mxid W p x1 = (Raise e, x2) ->
     fst (logout W self st) = Raise e /\
     by_twid (snd (logout W self st)) = by_twid st /\
     users (snd (logout W self st)) = users st /\
     db (snd (logout W self st)) = db st).
Proof.
  intros Hu Hok Hpg Hreal. unfold handle_ok in Hok.
  mstart st Hu. cbn in Hpg, Hok.
  assert (Hin : forall (l : list Call),
            In (CSwitchMxid p)
               ((l ++ [CPuppetGetByTwid (twid (fields u)) false]) ++ [CSwitchMxid p])).
  { intros l. apply in_or_app. right. by left. }
  unfold logout, update, db_save, with_client, with_user.
  mstep Hu.
  destruct (client u) as [c|] eqn:Hc; [destruct Hok as [a Ha]|];
    repeat mstep Hu;
    rewrite bind_call; sred; rewrite Hpg; unfold when; rewrite Hreal;
    rewrite bind_call; sred;
    (destruct (switch_mxid W p x1) as [[[]|e] x2] eqn:Hsw;
     [ rewrite bind_del_by_twid; sred; repeat mstep Hu; mfinish | sred ]);
    (split; [apply Hin|split]).
  all: try (intros ? [=]; fail).
  all: try (intros ? ? [=]; fail).
  - intros ? _. split; [done|split; [done|split; [|done]]].
    by apply (lookup_insert_hit _ _ _ _ Hu).
  - intros ? ? [= <- <-]. done.
  - intros ? _. split; [done|split; [done|split; [|done]]].
    by apply (lookup_insert_hit _ _ _ _ Hu).
  - intros ? ? [= <- <-]. done.
Qed.

Lemma db_find_twid_None (t : Z) (d : gmap string DBUser) :
  (forall m row, d !! m = Some row -> twid row <> Some t) ->
  db_find_twid t d = None.
Proof.
  intros H. unfold db_find_twid.
  destruct (filter _ (map_to_list d)) as [|[m row] l] eqn:E; [done|].
  assert ((m, row) ∈ filter (fun kv : string * DBUser => twid (snd kv) = Some t)
                       (map_to_list d)) as Hin by (rewrite E; left).
  apply list_elem_of_filter in Hin as [Ht Hin]. apply elem_of_map_to_list in Hin.
  by destruct (H m row Hin).
Qed.

(** ** [connect] *)

Ltac mconnect st Hu :=
  mstart st Hu;
  unfold connect, update, db_save, self_client, with_client, with_user;
  mexec Hu.

Lemma connect_clients self auth csrf st u :
  users st !! self = Some u ->
  exists a' : TwitterAPI,
    clients (snd (connect W self auth csrf st)) = clients st ++ [a'] /\
    log_name a' = mxid u /\
    (running a' = true -> fst (connect W self auth csrf st) = Ok tt) /\
    (fst (connect W self auth csrf st) = Ok tt ->
       running a' = true /\
       exists u', users (snd (connect W self auth csrf st)) !! self = Some u' /\
                  client u' = Some (length (clients st))).
Proof.
  intros Hu. mconnect st Hu.
  all: eexists; split; [reflexivity|split; [reflexivity|split]]; sred; try done.
  all: intros _; split; [done|]; eexists; split;
    [by apply (lookup_insert_hit _ _ _ _ Hu)|done].
Qed.

Lemma is_live_clients st st' m c :
  clients st' !! c = clients st !! c -> is_live st' m c = is_live st m c.
Proof. intros H. unfold is_live. by rewrite H. Qed.



(** Stopping the handle of a user that is its only live one leaves none. *)
Lemma no_live_after_teardown st st' u :
  handle_ok st u ->
  (forall c, is_live st (mxid u) c = true -> client u = Some c) ->
  (forall c a, client u = Some c -> clients st !! c = Some a ->
     clients st' = <[c := set_running false a]> (clients st)) ->
  (client u = None -> clients st' = clients st) ->
  no_live st' (mxid u).
Proof.
  intros Hh Hlive Hsome Hnone c'. unfold handle_ok in Hh.
  destruct (client u) as [c|] eqn:Hc.
  - destruct Hh as [a Ha]. specialize (Hsome c a eq_refl Ha).
    destruct (decide (c' = c)) as [->|Hne].
    + unfold is_live. by rewrite Hsome, (lookup_insert_hit _ _ _ _ Ha).
    + rewrite (is_live_clients st).
      * destruct (is_live st (mxid u) c') eqn:Hl; [|done].
        apply Hlive in Hl. congruence.
      * by rewrite Hsome, list_lookup_insert_ne.
  - rewrite (is_live_clients st) by (by rewrite Hnone).
    destruct (is_live st (mxid u) c') eqn:Hl; [|done].
    apply Hlive in Hl. congruence.
Qed.


(** ** [handle_message] *)

Ltac same_call :=
  repeat match goal with
         | H : ?t = (_, _), H' : ?t = (_, _) |- _ =>
             rewrite H in H'; first [ discriminate H' | injection H' as ? ?; subst ]
         end.

(** C8. [handle_message] first resolves the portal by the conversation id
    of the event, the remote id of the user and the type of the
    conversation.  With the portal [p] it got, it asks for a room exactly
    when [p.mxid] is falsy, and before anything else; then it hands the
    message data and the request id of the event to [p].  It does so on
    every delivery on which the portal calls before it return; whenever
    the handler returns, the last call it made is that one. *)
Theorem handle_message_resolves_materializes_forwards self evt st u :
  users st !! self = Some u ->
  exists tail,
    calls (snd (handle_message W self evt st)) =
      calls st ++ CPortalGetByTwid (conversation_id evt) (twid (fields u))
                                   (conv_type (conversation evt)) :: tail /\
    users (snd (handle_message W self evt st)) = users st /\
    (forall e x1,
       portal_get_by_twid W (conversation_id evt) (twid (fields u))
                          (conv_type (conversation evt)) (ext st) = (Raise e, x1) ->
       tail = [] /\ fst (handle_message W self evt st) = Raise e) /\
    (forall p x1,
       portal_get_by_twid W (conversation_id evt) (twid (fields u))
                          (conv_type (conversation evt)) (ext st) = (Ok p, x1) ->
       (In (CCreateMatrixRoom p self (conversation evt)) tail <->
        truthy_str (portal_mxid p) = false) /\
       (truthy_str (portal_mxid p) = true ->
          tail = [CHandleTwitterMessage p self (message_data evt) (request_id evt)]) /\
       (truthy_str (portal_mxid p) = false ->
          forall x2, create_matrix_room W p self (conversation evt) x1 = (Ok tt, x2) ->
          tail = [CCreateMatrixRoom p self (conversation evt);
                  CHandleTwitterMessage p self (message_data evt) (request_id evt)]) /\
       (truthy_str (portal_mxid p) = false ->
          forall e x2, create_matrix_room W p self (conversation evt) x1 = (Raise e, x2) ->
          tail = [CCreateMatrixRoom p self (conversation evt)] /\
          fst (handle_message W self evt st) = Raise e) /\
       (fst (handle_message W self evt st) = Ok tt ->
          last tail =
            Some (CHandleTwitterMessage p self (message_data evt) (request_id evt)))).
Proof.
  intros Hu. mstart st Hu. unfold handle_message.
  repeat mone Hu; rewrite ?call_eq; mfinish.
  all: eexists; (split; [rewrite <- ?app_assoc; reflexivity|]); (split; [done|]).
  all: split;
    [ intros e' x1' He'; first [discriminate He' | injection He' as <- <-; done] | ].
  all: intros p' x1' Hp'; first [discriminate Hp' | injection Hp' as <- <-].
  all: destruct (truthy_str (portal_mxid a)) eqn:Htr; cbn in E0; try discriminate E0.
  all: repeat split; intros; same_call; try done; cbn in *; try tauto.
  by destruct H as [H|[]].
Qed.

(** * Further properties *)

(** ** [update] *)

(** X1. [update] saves the record the user has after the call, so that the
    database holds exactly the user's columns.  With a handle the tokens
    and the cursor are first taken from it; the remote id, the notice
    room, the handle and the name of the user stay, and without a handle
    the user is not touched at all.  Nothing else changes. *)
Theorem update_saves_current_columns self st u :
  users st !! self = Some u -> handle_ok st u ->
  exists u',
    fst (update self st) = Ok tt /\
    users (snd (update self st)) = <[self := u']> (users st) /\
    db (snd (update self st)) = <[mxid u := fields u']> (db st) /\
    db (snd (update self st)) !! mxid u = Some (fields u') /\
    mxid u' = mxid u /\ client u' = client u /\ username u' = username u /\
    twid (fields u') = twid (fields u) /\
    notice_room (fields u') = notice_room (fields u) /\
    (client u = None -> u' = u) /\
    (forall c a, client u = Some c -> clients st !! c = Some a ->
       auth_token (fields u') = fst (tokens a) /\
       csrf_token (fields u') = snd (tokens a) /\
       poll_cursor (fields u') = api_poll_cursor a) /\
    clients (snd (update self st)) = clients st /\
    by_mxid (snd (update self st)) = by_mxid st /\
    by_twid (snd (update self st)) = by_twid st.
Proof.
  intros Hu Hok. unfold handle_ok in Hok. mstart st Hu. cbn in Hok.
  unfold update, db_save, with_user. mstep Hu.
  destruct (client u) as [c|] eqn:Hc.
  - destruct Hok as [a Ha]. repeat mstep Hu. mfinish.
    eexists. split; [done|split; [done|split; [done|split]]].
    { sred. apply lookup_insert_eq. }
    sred. rewrite Hc. do 6 (split; [done|]).
    split; [|done]. intros c' a' [= <-] Ha'. rewrite Ha in Ha'. by simplify_eq.
  - repeat mstep Hu. mfinish. exists u.
    split; [done|split; [by rewrite list_insert_id|split; [done|split]]].
    { apply lookup_insert_eq. }
    do 6 (split; [done|]). split; [|done]. by intros c a Hc'.
Qed.

(** ** More on [all_logged_in] *)

Lemma all_logged_in_run st :
  exists res st',
    all_logged_in st = (Ok res, st') /\
    all_logged_in_loop (seq (length (users st)) (length (db_rows_logged_in (db st))))
      (set_users (users st ++ ((fun kv => init_user (fst kv) (snd kv))
                                 <$> db_rows_logged_in (db st))) st) = (Ok res, st') /\
    length res = length (db_rows_logged_in (db st)).
Proof.
  set (rows := db_rows_logged_in (db st)).
  set (st0 := set_users (users st ++ ((fun kv => init_user (fst kv) (snd kv)) <$> rows)) st).
  destruct (all_logged_in_loop_spec (seq (length (users st)) (length rows)) st0)
    as (res & st' & Hrun & _ & _ & Hlen & _).
  { intros x Hx. apply elem_of_seq in Hx. apply lookup_lt_is_Some.
    subst st0. destruct st. cbn in *. rewrite length_app, length_fmap. lia. }
  exists res, st'. split; [|split; [done|by rewrite Hlen, length_seq]].
  unfold all_logged_in, db_all_logged_in.
  erewrite bind_ok by apply new_users_spec. exact Hrun.
Qed.

(** ** [try_connect] and [init_cls] *)

Lemma try_connect_ok self st : fst (try_connect W self st) = Ok tt.
Proof.
  unfold try_connect, try_except.
  by destruct (connect W self None None st) as [[[]|e] st'].
Qed.

(** X2. [try_connect] returns whatever [connect] does, and leaves the
    state [connect] leaves; [init_cls] returns one such call for each user
    [all_logged_in] gives, and every one of them returns on every state. *)
Theorem init_cls_connections_never_raise st :
  (forall self st', fst (try_connect W self st') = Ok tt /\
                    snd (try_connect W self st') = snd (connect W self None None st')) /\
  exists logged_in tasks,
    fst (all_logged_in st) = Ok logged_in /\
    init_cls W st = (Ok tasks, snd (all_logged_in st)) /\
    tasks = try_connect W <$> logged_in /\
    length tasks = length (db_rows_logged_in (db st)) /\
    forall task st', In task tasks -> fst (task st') = Ok tt.
Proof.
  split.
  - intros self st'. split; [apply try_connect_ok|].
    unfold try_connect, try_except.
    by destruct (connect W self None None st') as [[[]|e] st''].
  - destruct (all_logged_in_run st) as (res & st1 & Hres & _ & Hlen).
    exists res, (try_connect W <$> res). rewrite Hres.
    split; [done|split; [|split; [done|split]]].
    + unfold init_cls. by erewrite bind_ok by apply Hres.
    + by rewrite length_fmap.
    + intros task st' Hin. apply in_map_iff in Hin as (self & <- & _).
      apply try_connect_ok.
Qed.

(** ** [get_by_twid] and [_add_to_cache] *)

Lemma db_find_twid_Some (t : Z) (d : gmap string DBUser) m (row : DBUser) :
  db_find_twid t d = Some (m, row) -> d !! m = Some row /\ twid row = Some t.
Proof.
  unfold db_find_twid. intros H.
  destruct (filter _ (map_to_list d)) as [|kv l] eqn:E; [done|].
  cbn in H. injection H as ->.
  assert ((m, row) ∈ filter (fun kv : string * DBUser => twid (snd kv) = Some t)
                       (map_to_list d)) as Hin by (rewrite E; left).
  apply list_elem_of_filter in Hin as [Ht Hin]. apply elem_of_map_to_list in Hin. done.
Qed.

Lemma db_find_twid_is_Some (t : Z) (d : gmap string DBUser) m (row : DBUser) :
  d !! m = Some row -> twid row = Some t -> is_Some (db_find_twid t d).
Proof.
  intros Hm Ht. destruct (db_find_twid t d) as [kv|] eqn:E; [by eexists|].
  unfold db_find_twid in E.
  destruct (filter _ (map_to_list d)) as [|kv l] eqn:E'; [|done].
  assert ((m, row) ∈ filter (fun kv : string * DBUser => twid (snd kv) = Some t)
                       (map_to_list d)) as Hin.
  { apply list_elem_of_filter. split; [done|]. by apply elem_of_map_to_list. }
  rewrite E' in Hin. by apply elem_of_nil in Hin.
Qed.

Lemma db_get_by_twid_some {B} (t : Z) (k : option uref -> M B) st m (row : DBUser) :
  db_find_twid t (db st) = Some (m, row) ->
  bind (db_get_by_twid t) k st =
    k (Some (length (users st))) (set_users (users st ++ [init_user m row]) st).
Proof. intros H. unfold bind at 1, db_get_by_twid. rewrite H. reflexivity. Qed.

(** X3. [get_by_twid] never creates a user.  A cached user is returned
    as it is.  On a miss with no persisted record bound to the remote id
    the result is [None] and nothing changes.  On a miss with such a
    record, a user is made from one, entered in [by_mxid] under its
    [mxid] (replacing the entry that was there, if any) and in [by_twid]
    unless the remote id is 0; the database is left alone; and unless the
    remote id is 0 the next call returns this same user. *)
Theorem get_by_twid_loads_and_caches (t : Z) st :
  (forall r : uref, by_twid st !! t = Some r -> get_by_twid t st = (Ok (Some r), st)) /\
  (by_twid st !! t = None ->
   (forall m row, db st !! m = Some row -> twid row <> Some t) ->
   get_by_twid t st = (Ok None, st)) /\
  (forall m0 row0,
     by_twid st !! t = None -> db st !! m0 = Some row0 -> twid row0 = Some t ->
     exists m row,
       db st !! m = Some row /\ twid row = Some t /\
       fst (get_by_twid t st) = Ok (Some (length (users st))) /\
       users (snd (get_by_twid t st)) = users st ++ [init_user m row] /\
       by_mxid (snd (get_by_twid t st)) = <[m := length (users st)]> (by_mxid st) /\
       by_twid (snd (get_by_twid t st)) =
         (if t =? 0 then by_twid st else <[t := length (users st)]> (by_twid st)) /\
       db (snd (get_by_twid t st)) = db st /\
       (t <> 0 ->
        get_by_twid t (snd (get_by_twid t st)) =
          (Ok (Some (length (users st))), snd (get_by_twid t st)))).
Proof.
  split; [|split].
  - intros r Hr. unfold get_by_twid. by rewrite Hr.
  - intros Hc Hnone. unfold get_by_twid. rewrite Hc.
    unfold bind at 1, db_get_by_twid. by rewrite db_find_twid_None.
  - intros m0 row0 Hc Hm0 Ht0.
    destruct (db_find_twid_is_Some t (db st) m0 row0 Hm0 Ht0) as [[m row] Hfind].
    destruct (db_find_twid_Some _ _ _ _ Hfind) as [Hm Ht].
    exists m, row. split; [done|split; [done|]].
    assert (Hrun : get_by_twid t st =
              (Ok (Some (length (users st))),
               set_by_twid (if t =? 0 then by_twid st
                            else <[t := length (users st)]> (by_twid st))
                 (set_by_mxid (<[m := length (users st)]> (by_mxid st))
                    (set_users (users st ++ [init_user m row]) st)))).
    { unfold get_by_twid. rewrite Hc. rewrite (db_get_by_twid_some _ _ _ _ _ Hfind).
      destruct st as [us cs bm bt d x cl]. unfold add_to_cache.
      repeat mstep Hc. unfold when. sred. rewrite Ht. cbn [truthy_int].
      destruct (t =? 0); cbn [negb]; repeat mstep Hc; reflexivity. }
    rewrite Hrun. destruct st as [us cs bm bt d x cl]. sred.
    do 5 (split; [done|]). intros Hne.
    unfold get_by_twid. sred. apply Z.eqb_neq in Hne. rewrite Hne.
    by rewrite lookup_insert_eq.
Qed.

(** X4. After [_add_to_cache] both getters find the user: [get_by_mxid] of
    its [mxid] returns it, and so does [get_by_twid] of its remote id when
    that is not 0.  A user whose remote id is [None] or 0 is entered in
    [by_mxid] only.  The store of users is not changed. *)
Theorem add_to_cache_then_found self st u :
  users st !! self = Some u ->
  fst (add_to_cache self st) = Ok tt /\
  users (snd (add_to_cache self st)) = users st /\
  by_mxid (snd (add_to_cache self st)) = <[mxid u := self]> (by_mxid st) /\
  cached (snd (add_to_cache self st)) self u /\
  (forall create,
     get_by_mxid (mxid u) create (snd (add_to_cache self st)) =
       (Ok (Some self), snd (add_to_cache self st))) /\
  (forall t, twid (fields u) = Some t -> t <> 0 ->
     get_by_twid t (snd (add_to_cache self st)) =
       (Ok (Some self), snd (add_to_cache self st))) /\
  (truthy_int (twid (fields u)) = false ->
     by_twid (snd (add_to_cache self st)) = by_twid st).
Proof.
  intros Hu.
  assert (Hrun : add_to_cache self st =
            (Ok tt,
             set_by_twid (match twid (fields u) with
                          | Some t => if t =? 0 then by_twid st else <[t := self]> (by_twid st)
                          | None => by_twid st
                          end)
               (set_by_mxid (<[mxid u := self]> (by_mxid st)) st))).
  { mstart st Hu. unfold add_to_cache. repeat mstep Hu. unfold when.
    destruct (twid (fields u)) as [t|]; cbn [truthy_int]; [|by repeat mstep Hu].
    destruct (t =? 0); cbn [negb]; by repeat mstep Hu. }
  rewrite Hrun. destruct st as [us cs bm bt d x cl]. sred.
  assert (Htw : forall t, twid (fields u) = Some t -> t <> 0 ->
            match twid (fields u) with
            | Some t => if t =? 0 then bt else <[t := self]> bt
            | None => bt
            end !! t = Some self).
  { intros t Ht Hne. rewrite Ht. apply Z.eqb_neq in Hne. rewrite Hne.
    apply lookup_insert_eq. }
  split; [done|split; [done|split; [done|split; [|split; [|split]]]]].
  - split; sred; [apply lookup_insert_eq|exact Htw].
  - intros create. unfold get_by_mxid. sred. by rewrite lookup_insert_eq.
  - intros t Ht Hne. unfold get_by_twid. sred. by rewrite (Htw t Ht Hne).
  - intros Hf. destruct (twid (fields u)) as [t|]; [|done].
    cbn in Hf. apply negb_false_iff in Hf. by rewrite Hf.
Qed.

(** ** More on [logout] *)

(** X5. When the puppet lookup of [logout] gives no puppet, or one that is
    not a real user, [logout] makes no release call and returns: the
    [by_twid] entry of the remote id is gone (a missing entry, or a user
    without remote id, is no error), the user is cleared and the cleared
    record is saved. *)
Theorem logout_without_real_puppet_clears self st u (o : option Puppet) (x1 : Ext) :
  users st !! self = Some u -> handle_ok st u ->
  puppet_get_by_twid W (twid (fields u)) false (ext st) = (Ok o, x1) ->
  (forall p, o = Some p -> is_real_user p = false) ->
  fst (logout W self st) = Ok tt /\
  calls (snd (logout W self st)) = calls st ++ [CPuppetGetByTwid (twid (fields u)) false] /\
  by_twid (snd (logout W self st)) =
    match twid (fields u) with
    | Some t => delete t (by_twid st)
    | None => by_twid st
    end /\
  users (snd (logout W self st)) !! self =
    Some (mkUser (mxid u) (logged_out (fields u)) None (username u)) /\
  db (snd (logout W self st)) = <[mxid u := logged_out (fields u)]> (db st).
Proof.
  intros Hu Hok Hpg Hnot. unfold handle_ok in Hok.
  mstart st Hu. cbn in Hpg, Hok.
  unfold logout, update, db_save, with_client, with_user.
  mstep Hu.
  destruct (client u) as [c|] eqn:Hc; [destruct Hok as [a Ha]|];
    repeat mstep Hu;
    rewrite bind_call; sred; rewrite Hpg;
    (destruct o as [p|]; [unfold when; rewrite (Hnot p eq_refl)|]);
    repeat mstep Hu; rewrite bind_del_by_twid; sred; repeat mstep Hu; mfinish.
  all: split; [done|split; [done|split; [done|split; [|done]]]].
  all: by apply (lookup_insert_hit _ _ _ _ Hu).
Qed.

(** X6. When the puppet lookup of [logout] raises, [logout] raises the
    same error.  By then it has stopped the handle and nothing more: the
    users, both registries and the database are as before. *)
Theorem logout_puppet_lookup_raises self st u e (x1 : Ext) :
  users st !! self = Some u -> handle_ok st u ->
  puppet_get_by_twid W (twid (fields u)) false (ext st) = (Raise e, x1) ->
  fst (logout W self st) = Raise e /\
  users (snd (logout W self st)) = users st /\
  by_twid (snd (logout W self st)) = by_twid st /\
  by_mxid (snd (logout W self st)) = by_mxid st /\
  db (snd (logout W self st)) = db st /\
  (forall c a, client u = Some c -> clients st !! c = Some a ->
     clients (snd (logout W self st)) = <[c := set_running false a]> (clients st)).
Proof.
  intros Hu Hok Hpg. unfold handle_ok in Hok.
  mstart st Hu. cbn in Hpg, Hok.
  unfold logout, update, db_save, with_client, with_user.
  mstep Hu.
  destruct (client u) as [c|] eqn:Hc; [destruct Hok as [a Ha]|];
    repeat mstep Hu; rewrite bind_call; sred; rewrite Hpg; sred.
  - do 5 (split; [done|]). intros c' a' [= <-] Ha'. rewrite Ha in Ha'. by simplify_eq.
  - do 5 (split; [done|]). by intros c' a' Hc'.
Qed.

Lemma logout_frame_run self st u :
  users st !! self = Some u ->
  by_mxid (snd (logout W self st)) = by_mxid st /\
  (users (snd (logout W self st)) = users st \/
   users (snd (logout W self st)) =
     <[self := mkUser (mxid u) (logged_out (fields u)) None (username u)]> (users st)) /\
  (by_twid (snd (logout W self st)) = by_twid st \/
   exists t, twid (fields u) = Some t /\
             by_twid (snd (logout W self st)) = delete t (by_twid st)).
Proof.
  intros Hu. mstart st Hu. mlogout Hu.
  all: split; [done|split; [first [by left | by right]|]].
  all: first [by left | right; eexists; split; [eassumption || reflexivity | done]].
Qed.

(** X7. Whatever its outcome, [logout] keeps the user cached under its
    local id ([by_mxid] is not changed), touches no other user, and
    changes no [by_twid] entry other than the one of the user's remote
    id. *)
Theorem logout_touches_only_its_own self st u :
  users st !! self = Some u ->
  by_mxid (snd (logout W self st)) = by_mxid st /\
  (forall r : uref, r <> self ->
     users (snd (logout W self st)) !! r = users st !! r) /\
  (exists u', users (snd (logout W self st)) !! self = Some u' /\ mxid u' = mxid u) /\
  (forall t, twid (fields u) <> Some t ->
     by_twid (snd (logout W self st)) !! t = by_twid st !! t).
Proof.
  intros Hu. destruct (logout_frame_run self st u Hu) as (Hbm & Hus & Hbt).
  split; [done|split; [|split]].
  - intros r Hne. destruct Hus as [->| ->]; [done|]. by rewrite list_lookup_insert_ne.
  - destruct Hus as [->| ->]; [by exists u|].
    eexists. split; [by apply (lookup_insert_hit _ _ _ _ Hu)|done].
  - intros t Hne. destruct Hbt as [->|(t' & Ht' & ->)]; [done|].
    rewrite lookup_delete_ne; [done|]. congruence.
Qed.

(** ** More on [connect] *)

Lemma connect_ok_full self auth csrf st u :
  users st !! self = Some u ->
  fst (connect W self auth csrf st) = Ok tt ->
  exists (u' : User) (name : string),
    users (snd (connect W self auth csrf st)) = <[self := u']> (users st) /\
    clients (snd (connect W self auth csrf st)) =
      clients st ++ [set_running true (ready_client W self u auth csrf)] /\
    db (snd (connect W self auth csrf st)) = <[mxid u := fields u']> (db st) /\
    mxid u' = mxid u /\
    client u' = Some (length (clients st)) /\
    username u' = Some name /\
    auth_token (fields u') = py_or auth (auth_token (fields u)) /\
    csrf_token (fields u') = py_or csrf (csrf_token (fields u)) /\
    poll_cursor (fields u') = poll_cursor (fields u) /\
    notice_room (fields u') = notice_room (fields u).
Proof.
  intros Hu. mconnect st Hu; intros Hok; try done.
  all: eexists _, _; split; [reflexivity|]; sred; done.
Qed.

(** X8. After a [connect] that returns, the user holds the new handle,
    which is running and has the five handlers of the user, in the order
    of the source; the saved record is the user's, with the tokens the
    handle was given (an override that is [None] or empty gives way to the
    stored token) and the cursor and notice room it had. *)
Theorem connect_success_installs_and_saves self auth csrf st u :
  users st !! self = Some u ->
  fst (connect W self auth csrf st) = Ok tt ->
  exists (u' : User) (a' : TwitterAPI),
    users (snd (connect W self auth csrf st)) !! self = Some u' /\
    client u' = Some (length (clients st)) /\
    clients (snd (connect W self auth csrf st)) !! length (clients st) = Some a' /\
    running a' = true /\
    handlers a' = [(KConversation, (self, handle_conversation_update_m));
                   (KTwitterUser, (self, handle_user_update_m));
                   (KMessageEntry, (self, handle_message_m));
                   (KReactionCreateEntry, (self, handle_reaction_m));
                   (KReactionDeleteEntry, (self, handle_reaction_m))] /\
    tokens a' = (auth_token (fields u'), csrf_token (fields u')) /\
    auth_token (fields u') = py_or auth (auth_token (fields u)) /\
    csrf_token (fields u') = py_or csrf (csrf_token (fields u)) /\
    poll_cursor (fields u') = poll_cursor (fields u) /\
    notice_room (fields u') = notice_room (fields u) /\
    db (snd (connect W self auth csrf st)) !! mxid u = Some (fields u').
Proof.
  intros Hu Hok.
  destruct (connect_ok_full self auth csrf st u Hu Hok)
    as (u' & name & Hus & Hcs & Hdb & Hm & Hc & _ & Ha & Hcsrf & Hp & Hn).
  exists u', (set_running true (ready_client W self u auth csrf)).
  split; [rewrite Hus; by apply (lookup_insert_hit _ _ _ _ Hu)|].
  split; [done|]. split; [rewrite Hcs; apply lookup_snoc|].
  split; [done|]. split; [done|].
  split; [cbn; by rewrite Ha, Hcsrf|].
  do 4 (split; [done|]). rewrite Hdb. apply lookup_insert_eq.
Qed.

(** ** Lifecycle sequences *)

Lemma connect_live_only_new self auth csrf st u :
  users st !! self = Some u ->
  no_live st (mxid u) ->
  forall c, is_live (snd (connect W self auth csrf st)) (mxid u) c = true ->
            c = length (clients st).
Proof.
  intros Hu Hno c Hc.
  destruct (connect_clients self auth csrf st u Hu) as (a' & Hcl & _).
  destruct (decide (c < length (clients st))%nat) as [Hlt|Hge].
  - rewrite (is_live_clients st) in Hc; [by rewrite Hno in Hc|].
    by rewrite Hcl, lookup_app_l.
  - destruct (decide (c = length (clients st))) as [->|Hne]; [done|].
    unfold is_live in Hc. rewrite Hcl in Hc.
    rewrite lookup_ge_None_2 in Hc; [done|]. rewrite length_app. cbn. lia.
Qed.

(** X11. Reconnecting through [stop]: when the only live handle of a user
    is its own, then after [stop] and a [connect] that returns exactly
    one handle of the user is live, the new one, and the user holds it. *)
Theorem stop_then_connect_one_live_handle self auth csrf st u :
  users st !! self = Some u -> handle_ok st u ->
  (forall c, is_live st (mxid u) c = true -> client u = Some c) ->
  fst (connect W self auth csrf (snd (stop self st))) = Ok tt ->
  (forall c, is_live (snd (connect W self auth csrf (snd (stop self st)))) (mxid u) c = true <->
             c = length (clients st)) /\
  exists u', users (snd (connect W self auth csrf (snd (stop self st)))) !! self = Some u' /\
             client u' = Some (length (clients st)).
Proof.
  intros Hu Hok Hlive Hconn.
  assert (Hno : no_live (snd (stop self st)) (mxid u)).
  { apply (no_live_after_teardown st _ u Hok Hlive).
    - intros c a Hc Ha. rewrite (stop_client _ _ _ _ _ Hu Hc Ha). by destruct st.
    - intros Hc. rewrite (stop_no_client _ _ _ Hu Hc). by destruct st. }
  assert (exists u1, users (snd (stop self st)) !! self = Some u1 /\ mxid u1 = mxid u /\
                     length (clients (snd (stop self st))) = length (clients st))
    as (u1 & Hu1 & Hm1 & Hlen).
  { unfold handle_ok in Hok. destruct (client u) as [c|] eqn:Hc.
    - destruct Hok as [a Ha]. rewrite (stop_client _ _ _ _ _ Hu Hc Ha).
      eexists. split; [|split].
      + destruct st. cbn in *. by apply (lookup_insert_hit _ _ _ _ Hu).
      + done.
      + destruct st. cbn. by rewrite length_insert.
    - rewrite (stop_no_client _ _ _ Hu Hc).
      exists u. split; [by destruct st|split; [done|by destruct st]]. }
  rewrite <- Hm1 in Hno |- *. rewrite <- Hlen.
  destruct (connect_clients self auth csrf _ u1 Hu1) as (a' & Hcl & Hname & _ & Hok').
  destruct (Hok' Hconn) as (Hrun & Hu').
  split; [|done].
  intros c. split.
  - by apply connect_live_only_new.
  - intros ->. unfold is_live. rewrite Hcl, lookup_snoc, Hrun, Hname. cbn.
    by apply bool_decide_eq_true.
Qed.

(** ** More on [is_logged_in] and the handlers *)

(** X12. With a handle, [is_logged_in] is [True] exactly when the probe
    returns an identifier, and [False] when the probe returns [None].
    Whatever the probe does, [is_logged_in] changes no user, no handle,
    no registry entry and no record. *)
Theorem is_logged_in_probe_and_frame self st :
  (forall u c a r (x1 : Ext),
     users st !! self = Some u -> client u = Some c -> clients st !! c = Some a ->
     get_user_identifier W a (ext st) = (Ok r, x1) ->
     fst (is_logged_in W self st) = Ok (VBool (bool_decide (r <> None))) /\
     (truthy (VBool (bool_decide (r <> None))) = true <-> is_Some r)) /\
  users (snd (is_logged_in W self st)) = users st /\
  clients (snd (is_logged_in W self st)) = clients st /\
  by_mxid (snd (is_logged_in W self st)) = by_mxid st /\
  by_twid (snd (is_logged_in W self st)) = by_twid st /\
  db (snd (is_logged_in W self st)) = db st.
Proof.
  split.
  - intros u c a r x1 Hu Hc Ha Hp. split.
    + unfold is_logged_in, try_except.
      erewrite bind_get_user by eassumption. rewrite Hc.
      erewrite bind_get_client by eassumption.
      rewrite bind_call, Hp. reflexivity.
    + cbn. rewrite bool_decide_eq_true.
      destruct r; split; try done; try (by eexists); by intros [? ?].
  - destruct st as [us cs bm bt d x cl]. unfold is_logged_in, try_except.
    destruct (us !! self) as [u|] eqn:Hu.
    + erewrite bind_get_user by (sred; eassumption).
      destruct (client u) as [c|]; [|done].
      rewrite bind_get_client_case. sred.
      destruct (cs !! c) as [a|]; [|done].
      rewrite bind_call. sred.
      by destruct (get_user_identifier W a x) as [[r|e] x1].
    + unfold bind, get_user. sred. by rewrite Hu.
Qed.

(** X13. [handle_conversation_update] resolves the portal by the id and
    type of the conversation and the remote id of the user, and hands it
    the update; when the resolver raises, so does the handler, without a
    second call.  It never asks for a room and changes no user. *)
Theorem handle_conversation_update_forwards self (evt : Conversation) st u :
  users st !! self = Some u ->
  exists tail,
    calls (snd (handle_conversation_update W self evt st)) = calls st ++ tail /\
    (forall p s info, ~ In (CCreateMatrixRoom p s info) tail) /\
    users (snd (handle_conversation_update W self evt st)) = users st /\
    (forall p x1,
       portal_get_by_twid W (conv_id evt) (twid (fields u)) (conv_type evt) (ext st)
         = (Ok p, x1) ->
       tail = [CPortalGetByTwid (conv_id evt) (twid (fields u)) (conv_type evt);
               CPortalUpdateInfo p evt] /\
       fst (handle_conversation_update W self evt st) =
         fst (portal_update_info W p evt x1)) /\
    (forall e x1,
       portal_get_by_twid W (conv_id evt) (twid (fields u)) (conv_type evt) (ext st)
         = (Raise e, x1) ->
       tail = [CPortalGetByTwid (conv_id evt) (twid (fields u)) (conv_type evt)] /\
       fst (handle_conversation_update W self evt st) = Raise e).
Proof.
  intros Hu. mstart st Hu. unfold handle_conversation_update.
  mstep Hu. rewrite bind_call. sred.
  destruct (portal_get_by_twid W (conv_id evt) (twid (fields u)) (conv_type evt) x)
    as [[p|e] x1] eqn:E; rewrite ?call_eq; sred.
  - exists [CPortalGetByTwid (conv_id evt) (twid (fields u)) (conv_type evt);
            CPortalUpdateInfo p evt].
    split; [by rewrite <- app_assoc|split; [|split; [done|split]]].
    + intros p' s info [H|[H|[]]]; discriminate H.
    + by intros p' x1' [= <- <-].
    + by intros.
  - exists [CPortalGetByTwid (conv_id evt) (twid (fields u)) (conv_type evt)].
    split; [done|split; [|split; [done|split]]].
    + intros p' s info [H|[]]; discriminate H.
    + by intros.
    + by intros e' x1' [= <- <-].
Qed.

(** ** The registry by local id is kept well formed *)

Lemma bind_get_user_none {B} self (k : User -> M B) st :
  users st !! self = None ->
  bind (get_user self) k st = (Raise (AttributeError "self"), st).
Proof. intros H. unfold bind, get_user. by rewrite H. Qed.

Lemma users_kept_same st st' : users st' = users st -> users_kept st st'.
Proof. intros H r u Hr. exists u. by rewrite H. Qed.

Lemma users_kept_insert st st' self u u' :
  users st !! self = Some u -> users st' = <[self := u']> (users st) ->
  mxid u' = mxid u -> users_kept st st'.
Proof.
  intros Hu Hus Hm r u0 Hr. rewrite Hus.
  destruct (decide (r = self)) as [->|Hne].
  - exists u'. split; [by apply (lookup_insert_hit _ _ _ _ Hu)|congruence].
  - exists u0. by rewrite list_lookup_insert_ne.
Qed.

Lemma users_kept_app st st' (l : list User) :
  users st' = users st ++ l -> users_kept st st'.
Proof.
  intros H r u Hr. exists u. split; [|done].
  rewrite H, lookup_app_l; [done|]. by eapply lookup_lt_Some.
Qed.

Lemma by_mxid_wf_kept st st' :
  by_mxid_wf st -> users_kept st st' -> by_mxid st' = by_mxid st -> by_mxid_wf st'.
Proof.
  intros Hwf Hk Hbm m r Hr. rewrite Hbm in Hr.
  destruct (Hwf m r Hr) as (u & Hu & Hm). destruct (Hk r u Hu) as (u' & Hu' & Hm').
  exists u'. split; [done|congruence].
Qed.

Lemma by_mxid_wf_insert st st' (r0 : uref) u0 :
  by_mxid_wf st -> users_kept st st' -> users st' !! r0 = Some u0 ->
  by_mxid st' = <[mxid u0 := r0]> (by_mxid st) -> by_mxid_wf st'.
Proof.
  intros Hwf Hk Hu0 Hbm m r Hr. rewrite Hbm in Hr.
  apply lookup_insert_Some in Hr as [[<- <-]|[_ Hr]]; [by exists u0|].
  destruct (Hwf m r Hr) as (u & Hu & Hm). destruct (Hk r u Hu) as (u' & Hu' & Hm').
  exists u'. split; [done|congruence].
Qed.

Ltac kept Hu :=
  split; [done|];
  first [ by apply users_kept_same
        | eapply users_kept_insert; [exact Hu|reflexivity|done] ].

Lemma connect_keeps self auth csrf st :
  by_mxid (snd (connect W self auth csrf st)) = by_mxid st /\
  users_kept st (snd (connect W self auth csrf st)).
Proof.
  destruct (users st !! self) as [u|] eqn:Hu.
  - mconnect st Hu; kept Hu.
  - unfold connect. rewrite (bind_get_user_none _ _ _ Hu). split; [done|by apply users_kept_same].
Qed.

Lemma stop_keeps self st :
  by_mxid (snd (stop self st)) = by_mxid st /\ users_kept st (snd (stop self st)).
Proof.
  destruct (users st !! self) as [u|] eqn:Hu.
  - mstart st Hu. unfold stop, update, db_save, with_client, with_user. mexec Hu; kept Hu.
  - unfold stop. rewrite (bind_get_user_none _ _ _ Hu). split; [done|by apply users_kept_same].
Qed.

Lemma update_keeps self st :
  by_mxid (snd (update self st)) = by_mxid st /\ users_kept st (snd (update self st)).
Proof.
  destruct (users st !! self) as [u|] eqn:Hu.
  - mstart st Hu. unfold update, db_save, with_client, with_user. mexec Hu; kept Hu.
  - unfold update. rewrite (bind_get_user_none _ _ _ Hu). split; [done|by apply users_kept_same].
Qed.

Lemma logout_keeps self st :
  by_mxid (snd (logout W self st)) = by_mxid st /\ users_kept st (snd (logout W self st)).
Proof.
  destruct (users st !! self) as [u|] eqn:Hu.
  - destruct (logout_frame_run self st u Hu) as (Hbm & [Hus|Hus] & _); split; try done.
    + by apply users_kept_same.
    + by eapply (users_kept_insert _ _ _ _ _ Hu).
  - unfold logout. rewrite (bind_get_user_none _ _ _ Hu). split; [done|by apply users_kept_same].
Qed.

Lemma handle_message_keeps self evt st :
  by_mxid (snd (handle_message W self evt st)) = by_mxid st /\
  users_kept st (snd (handle_message W self evt st)).
Proof.
  destruct (users st !! self) as [u|] eqn:Hu.
  - mstart st Hu. unfold handle_message. repeat mone Hu; rewrite ?call_eq; mfinish; kept Hu.
  - unfold handle_message. rewrite (bind_get_user_none _ _ _ Hu).
    split; [done|by apply users_kept_same].
Qed.

Lemma add_to_cache_wf (self : uref) st u :
  users st !! self = Some u -> by_mxid_wf st -> by_mxid_wf (snd (add_to_cache self st)).
Proof.
  intros Hu Hwf. destruct (add_to_cache_spec _ _ _ Hu) as (bt' & ->).
  apply (by_mxid_wf_insert st _ self u Hwf).
  - apply users_kept_same. by destruct st.
  - by destruct st.
  - by destruct st.
Qed.

Lemma get_by_mxid_wf m create st :
  by_mxid_wf st ->
  by_mxid_wf (snd (get_by_mxid m create st)) /\
  (forall r : uref, fst (get_by_mxid m create st) = Ok (Some r) ->
     by_mxid (snd (get_by_mxid m create st)) !! m = Some r).
Proof.
  intros Hwf. unfold get_by_mxid.
  destruct (by_mxid st !! m) as [r|] eqn:Hc.
  - split; [done|]. cbn. congruence.
  - destruct (db st !! m) as [d|] eqn:Hd.
    + rewrite (db_get_by_mxid_some _ _ _ _ Hd).
      destruct st as [us cs bm bt db0 x cl]. unfold add_to_cache.
      mexec Hc.
      all: split; [|intros r [= <-]; apply lookup_insert_eq].
      all: eapply (by_mxid_wf_insert _ _ (length us) (init_user m d) Hwf);
        [by apply (users_kept_app _ _ [init_user m d])|apply lookup_snoc|done].
    + rewrite (db_get_by_mxid_none _ _ _ Hd). destruct create.
      * destruct st as [us cs bm bt db0 x cl]. unfold add_to_cache, db_save.
        mexec Hc.
        all: split; [|intros r [= <-]; apply lookup_insert_eq].
        all: eapply (by_mxid_wf_insert _ _ (length us) (init_user m blank) Hwf);
          [by apply (users_kept_app _ _ [init_user m blank])|apply lookup_snoc|done].
      * split; [done|]. cbn. congruence.
Qed.

Lemma get_by_twid_wf (t : Z) st :
  by_mxid_wf st -> by_mxid_wf (snd (get_by_twid t st)).
Proof.
  intros Hwf. unfold get_by_twid.
  destruct (by_twid st !! t) as [r|] eqn:Hc; [done|].
  destruct (db_find_twid t (db st)) as [[m row]|] eqn:Hf.
  - rewrite (db_get_by_twid_some _ _ _ _ _ Hf).
    destruct st as [us cs bm bt db0 x cl]. unfold add_to_cache.
    mexec Hc.
    all: eapply (by_mxid_wf_insert _ _ (length us) (init_user m row) Hwf);
      [by apply (users_kept_app _ _ [init_user m row])|apply lookup_snoc|done].
  - unfold bind at 1, db_get_by_twid. by rewrite Hf.
Qed.

Lemma all_logged_in_loop_frame (fresh : list uref) st :
  (forall x, x ∈ fresh -> is_Some (users st !! x)) ->
  exists res st',
    all_logged_in_loop fresh st = (Ok res, st') /\
    db st' = db st /\
    (by_mxid_wf st -> by_mxid_wf st').
Proof.
  revert st. induction fresh as [|user rest IH]; intros st Hdom.
  - by exists [], st.
  - destruct (Hdom user) as [u0 Hu0]; [left|].
    cbn [all_logged_in_loop]. rewrite (bind_get_user _ _ _ _ Hu0).
    destruct (by_mxid st !! mxid u0) as [hit|] eqn:Hc.
    + destruct (IH st) as (res & st' & Hrun & Hdb & Hwf).
      { intros x Hx. apply Hdom. by right. }
      exists (hit :: res), st'. split; [|done].
      unfold bind at 1. rewrite Hc. erewrite bind_ok by apply Hrun. done.
    + destruct (add_to_cache_spec _ _ _ Hu0) as (bt' & Hadd).
      pose proof (add_to_cache_wf user st u0 Hu0) as Hwf1. rewrite Hadd in Hwf1.
      cbn [snd] in Hwf1.
      set (st1 := set_by_twid bt' (set_by_mxid (<[mxid u0 := user]> (by_mxid st)) st)) in *.
      destruct (IH st1) as (res & st' & Hrun & Hdb & Hwf).
      { intros x Hx. replace (users st1) with (users st) by (by destruct st).
        apply Hdom. by right. }
      exists (user :: res), st'. split; [|split].
      * unfold bind at 1. rewrite Hc. erewrite bind_ok by apply Hadd. cbn [ret].
        erewrite bind_ok by apply Hrun. done.
      * rewrite Hdb. by destruct st.
      * auto.
Qed.

Lemma all_logged_in_frame st :
  db (snd (all_logged_in st)) = db st /\
  (by_mxid_wf st -> by_mxid_wf (snd (all_logged_in st))).
Proof.
  destruct (all_logged_in_run st) as (res & st' & Hall & Hloop & _).
  set (rows := db_rows_logged_in (db st)) in *.
  set (st0 := set_users (users st ++ ((fun kv => init_user (fst kv) (snd kv)) <$> rows)) st)
    in *.
  destruct (all_logged_in_loop_frame (seq (length (users st)) (length rows)) st0)
    as (res' & st'' & Hrun & Hdb & Hwf).
  { intros x Hx. apply elem_of_seq in Hx. apply lookup_lt_is_Some.
    subst st0. destruct st. cbn in *. rewrite length_app, length_fmap. lia. }
  rewrite Hall. rewrite Hloop in Hrun. injection Hrun as <- <-. cbn [snd].
  split; [rewrite Hdb; by destruct st|].
  intros Hwf0. apply Hwf.
  apply (by_mxid_wf_kept st st0 Hwf0); [|by destruct st].
  apply (users_kept_app _ _ ((fun kv => init_user (fst kv) (snd kv)) <$> rows)).
  by destruct st.
Qed.

(** X14. Every entry of [by_mxid] leads to a user of the store whose
    [mxid] is the key, and every operation keeps it so: the three getters,
    [connect] and [try_connect], [stop], [logout], [update] and
    [handle_message], whatever their outcome.  So what [get_by_mxid]
    returns for a local id is a user with that local id. *)
Theorem by_mxid_stays_well_formed st :
  by_mxid_wf st ->
  (forall m create, by_mxid_wf (snd (get_by_mxid m create st))) /\
  (forall t, by_mxid_wf (snd (get_by_twid t st))) /\
  by_mxid_wf (snd (all_logged_in st)) /\
  (forall self auth csrf, by_mxid_wf (snd (connect W self auth csrf st))) /\
  (forall self, by_mxid_wf (snd (try_connect W self st))) /\
  (forall self, by_mxid_wf (snd (stop self st))) /\
  (forall self, by_mxid_wf (snd (logout W self st))) /\
  (forall self, by_mxid_wf (snd (update self st))) /\
  (forall self evt, by_mxid_wf (snd (handle_message W self evt st))) /\
  (forall m create (r : uref),
     fst (get_by_mxid m create st) = Ok (Some r) ->
     exists u, users (snd (get_by_mxid m create st)) !! r = Some u /\ mxid u = m).
Proof.
  intros Hwf.
  split; [intros; by apply get_by_mxid_wf|].
  split; [intros; by apply get_by_twid_wf|].
  split; [by apply all_logged_in_frame|].
  split.
  { intros self auth csrf. destruct (connect_keeps self auth csrf st) as [Hbm Hk].
    by apply (by_mxid_wf_kept st). }
  split.
  { intros self. destruct (connect_keeps self None None st) as [Hbm Hk].
    replace (snd (try_connect W self st)) with (snd (connect W self None None st)).
    - by apply (by_mxid_wf_kept st).
    - unfold try_connect, try_except.
      by destruct (connect W self None None st) as [[[]|e] st']. }
  split.
  { intros self. destruct (stop_keeps self st) as [Hbm Hk]. by apply (by_mxid_wf_kept st). }
  split.
  { intros self. destruct (logout_keeps self st) as [Hbm Hk]. by apply (by_mxid_wf_kept st). }
  split.
  { intros self. destruct (update_keeps self st) as [Hbm Hk]. by apply (by_mxid_wf_kept st). }
  split.
  { intros self evt. destruct (handle_message_keeps self evt st) as [Hbm Hk].
    by apply (by_mxid_wf_kept st). }
  intros m create r Hr. destruct (get_by_mxid_wf m create st Hwf) as [Hwf' Hin].
  apply Hwf', Hin, Hr.
Qed.

Lemma all_logged_in_index st :
  exists res st',
    all_logged_in st = (Ok res, st') /\
    length res = length (db_rows_logged_in (db st)) /\
    db st' = db st /\
    forall i m d, db_rows_logged_in (db st) !! i = Some (m, d) ->
      exists y : uref, res !! i = Some y /\
        by_mxid st' !! m = Some y /\
        (forall r : uref, by_mxid st !! m = Some r -> y = r).
Proof.
  destruct (all_logged_in_run st) as (res & st' & Hall & Hloop & Hlen).
  exists res, st'. split; [done|split; [done|split]].
  { destruct (all_logged_in_frame st) as [Hdb _]. by rewrite Hall in Hdb. }
  set (rows := db_rows_logged_in (db st)) in *.
  set (st0 := set_users (users st ++ ((fun kv => init_user (fst kv) (snd kv)) <$> rows)) st)
    in *.
  assert (Hus0 : users st0 = users st ++ ((fun kv => init_user (fst kv) (snd kv)) <$> rows))
    by (by destruct st).
  assert (Hbm0 : by_mxid st0 = by_mxid st) by (by destruct st).
  destruct (all_logged_in_loop_spec (seq (length (users st)) (length rows)) st0)
    as (res' & st'' & Hrun & _ & _ & _ & Hres).
  { intros x Hx. apply elem_of_seq in Hx. apply lookup_lt_is_Some.
    rewrite Hus0, length_app, length_fmap. lia. }
  rewrite Hloop in Hrun. injection Hrun as <- <-.
  intros i m d Hi.
  assert (seq (length (users st)) (length rows) !! i = Some (length (users st) + i)%nat) as Hs.
  { apply lookup_seq. split; [done|]. by eapply lookup_lt_Some. }
  assert (users st0 !! (length (users st) + i)%nat = Some (init_user m d)) as Hu.
  { rewrite Hus0, lookup_app_r by lia.
    replace (length (users st) + i - length (users st))%nat with i by lia.
    by rewrite list_lookup_fmap, Hi. }
  destruct (Hres _ _ _ Hs Hu) as (y & Hy & Hby & Hc & _).
  cbn [mxid init_user] in Hby, Hc. rewrite Hbm0 in Hc.
  exists y. done.
Qed.

(** X15. After [all_logged_in], [get_by_mxid] of the local id of any
    record with credentials returns the element the list has for it, and
    makes no object; and a second [all_logged_in] returns the same list
    of users. *)
Theorem all_logged_in_then_lookups_agree st :
  exists res,
    fst (all_logged_in st) = Ok res /\
    (forall i m d, db_rows_logged_in (db st) !! i = Some (m, d) ->
       exists y : uref, res !! i = Some y /\
         forall create,
           get_by_mxid m create (snd (all_logged_in st)) =
             (Ok (Some y), snd (all_logged_in st))) /\
    fst (all_logged_in (snd (all_logged_in st))) = Ok res.
Proof.
  destruct (all_logged_in_index st) as (res & st1 & Hall & Hlen & Hdb & Hidx).
  exists res. rewrite Hall. cbn [fst snd]. split; [done|split].
  - intros i m d Hi. destruct (Hidx i m d Hi) as (y & Hy & Hby & _).
    exists y. split; [done|]. intros create. unfold get_by_mxid. by rewrite Hby.
  - destruct (all_logged_in_index st1) as (res2 & st2 & Hall2 & Hlen2 & _ & Hidx2).
    rewrite Hall2. cbn [fst]. f_equal. rewrite Hdb in Hlen2, Hidx2.
    apply list_eq. intros i.
    destruct (db_rows_logged_in (db st) !! i) as [[m d]|] eqn:Hi.
    + destruct (Hidx i m d Hi) as (y & Hy & Hby & _).
      destruct (Hidx2 i m d Hi) as (y2 & Hy2 & _ & Hc2).
      rewrite Hy, Hy2. f_equal. by apply Hc2.
    + apply lookup_ge_None in Hi.
      rewrite !lookup_ge_None_2; [done|lia..].
Qed.

(** X16. [logout] deletes the [by_twid] entry of the user's remote id
    without looking at whose it is: after a [logout] that returns, the
    remote id has no entry, also when the entry was another user's; that
    other user itself is not changed. *)
Theorem logout_drops_entry_of_any_owner self st u (t : Z) (other : uref) :
  users st !! self = Some u ->
  twid (fields u) = Some t ->
  by_twid st !! t = Some other ->
  other <> self ->
  fst (logout W self st) = Ok tt ->
  by_twid (snd (logout W self st)) !! t = None /\
  users (snd (logout W self st)) !! other = users st !! other.
Proof.
  intros Hu Ht Hother Hne Hok.
  destruct (logout_ok_inv self st u Hu Hok) as (_ & Hbt & _).
  destruct (logout_frame_run self st u Hu) as (_ & Hus & _).
  split.
  - rewrite Hbt, Ht. apply lookup_delete_eq.
  - destruct Hus as [->| ->]; [done|]. by rewrite list_lookup_insert_ne.
Qed.

(** * What [connect] binds, and what the getters then find *)

Lemma connect_ok_run self auth csrf st u :
  users st !! self = Some u ->
  fst (connect W self auth csrf st) = Ok tt ->
  exists (r : option Z) (x1 : Ext) (s : gmap string string) (x2 : Ext) (name : string)
         (u' : User),
    get_user_identifier W (probe_client W u auth csrf) (ext st) = (Ok r, x1) /\
    get_settings W (ready_client W self u auth csrf) x1 = (Ok s, x2) /\
    s !! "screen_name"%string = Some name /\
    users (snd (connect W self auth csrf st)) !! self = Some u' /\
    mxid u' = mxid u /\
    by_mxid (snd (connect W self auth csrf st)) = by_mxid st /\
    ((truthy_int (twid (fields u)) = true /\
      twid (fields u') = twid (fields u) /\
      by_twid (snd (connect W self auth csrf st)) = by_twid st /\
      calls (snd (connect W self auth csrf st)) =
        calls st ++ [CGetUserIdentifier (length (clients st));
                     CGetSettings (length (clients st))]) \/
     (truthy_int (twid (fields u)) = false /\
      exists (first : TwitterUser) (rest : list TwitterUser) (x3 : Ext),
        lookup_users W (ready_client W self u auth csrf) [name] x2 = (Ok (first :: rest), x3) /\
        twid (fields u') = Some (user_id first) /\
        by_twid (snd (connect W self auth csrf st)) =
          <[user_id first := self]> (by_twid st) /\
        calls (snd (connect W self auth csrf st)) =
          calls st ++ [CGetUserIdentifier (length (clients st));
                       CGetSettings (length (clients st));
                       CLookupUsers (length (clients st)) [name]])).
Proof.
  intros Hu. mconnect st Hu; intros Hok; try done.
  - apply negb_true_iff in E2.
    eexists _, _, _, _, _, _.
    split; [first [reflexivity|exact E]|split; [first [reflexivity|exact E0]|split; [exact E1|]]].
    split; [by apply (lookup_insert_hit _ _ _ _ Hu)|split; [done|split; [done|]]].
    right. split; [done|]. eexists _, _, _. split; [first [reflexivity|exact E3]|].
    sred. rewrite <- !app_assoc. done.
  - apply negb_false_iff in E2.
    eexists _, _, _, _, _, _.
    split; [first [reflexivity|exact E]|split; [first [reflexivity|exact E0]|split; [exact E1|]]].
    split; [by apply (lookup_insert_hit _ _ _ _ Hu)|split; [done|split; [done|]]].
    left. sred. rewrite <- !app_assoc. done.
Qed.

(** C7, as the code has it.  After a [connect] that returns, with [name]
    the screen name of the settings: when the stored remote id is falsy
    ([None] or 0) the users named [name] are looked up, the id of the
    first one found is stored and entered in [by_twid], and [get_by_twid]
    of it returns this user; when the stored remote id is not 0 there is
    no lookup, the id is kept and [by_twid] is left alone, so that
    [get_by_twid] returns whichever user [by_twid] had for it.
    [get_by_mxid] of the local id returns whichever user [by_mxid] had.
    The two are the same user when this user was the cached one. *)
Theorem connect_binds_first_found_when_falsy self auth csrf st u :
  users st !! self = Some u ->
  fst (connect W self auth csrf st) = Ok tt ->
  exists (r : option Z) (x1 : Ext) (s : gmap string string) (x2 : Ext) (name : string)
         (u' : User) (t : Z),
    get_user_identifier W (probe_client W u auth csrf) (ext st) = (Ok r, x1) /\
    get_settings W (ready_client W self u auth csrf) x1 = (Ok s, x2) /\
    s !! "screen_name"%string = Some name /\
    users (snd (connect W self auth csrf st)) !! self = Some u' /\
    twid (fields u') = Some t /\
    (truthy_int (twid (fields u)) = true ->
       twid (fields u) = Some t /\
       by_twid (snd (connect W self auth csrf st)) = by_twid st /\
       calls (snd (connect W self auth csrf st)) =
         calls st ++ [CGetUserIdentifier (length (clients st));
                      CGetSettings (length (clients st))] /\
       (forall o : uref, by_twid st !! t = Some o ->
          get_by_twid t (snd (connect W self auth csrf st)) =
            (Ok (Some o), snd (connect W self auth csrf st)))) /\
    (truthy_int (twid (fields u)) = false ->
       exists (first : TwitterUser) (rest : list TwitterUser) (x3 : Ext),
         lookup_users W (ready_client W self u auth csrf) [name] x2
           = (Ok (first :: rest), x3) /\
         t = user_id first /\
         by_twid (snd (connect W self auth csrf st)) = <[t := self]> (by_twid st) /\
         calls (snd (connect W self auth csrf st)) =
           calls st ++ [CGetUserIdentifier (length (clients st));
                        CGetSettings (length (clients st));
                        CLookupUsers (length (clients st)) [name]] /\
         get_by_twid t (snd (connect W self auth csrf st)) =
           (Ok (Some self), snd (connect W self auth csrf st))) /\
    (forall (o : uref) create, by_mxid st !! mxid u = Some o ->
       get_by_mxid (mxid u) create (snd (connect W self auth csrf st)) =
         (Ok (Some o), snd (connect W self auth csrf st))) /\
    (cached st self u ->
       fst (get_by_twid t (snd (connect W self auth csrf st))) = Ok (Some self) /\
       fst (get_by_mxid (mxid u) true (snd (connect W self auth csrf st))) = Ok (Some self)).
Proof.
  intros Hu Hok.
  destruct (connect_ok_run self auth csrf st u Hu Hok)
    as (r & x1 & s & x2 & name & u' & Hp & Hs & Hn & Hu' & _ & Hbm & Hcase).
  assert (Hmx : forall (o : uref) create, by_mxid st !! mxid u = Some o ->
            get_by_mxid (mxid u) create (snd (connect W self auth csrf st)) =
              (Ok (Some o), snd (connect W self auth csrf st))).
  { intros o create Ho. unfold get_by_mxid. by rewrite Hbm, Ho. }
  destruct Hcase as [(Htr & Ht & Hbt & Hcalls)|(Htr & first & rest & x3 & Hl & Ht & Hbt & Hcalls)].
  - destruct (twid (fields u)) as [t|] eqn:Htw; [|done].
    assert (Hget : forall o : uref, by_twid st !! t = Some o ->
              get_by_twid t (snd (connect W self auth csrf st)) =
                (Ok (Some o), snd (connect W self auth csrf st))).
    { intros o Ho. unfold get_by_twid. by rewrite Hbt, Ho. }
    exists r, x1, s, x2, name, u', t.
    do 5 (split; [done|]). split; [done|]. split; [by rewrite Htr|].
    split; [done|]. intros [Hm Hc]. split.
    + rewrite (Hget self); [done|]. apply Hc; [done|].
      cbn in Htr. by apply negb_true_iff, Z.eqb_neq in Htr.
    + by rewrite (Hmx self true Hm).
  - assert (Hget : get_by_twid (user_id first) (snd (connect W self auth csrf st)) =
              (Ok (Some self), snd (connect W self auth csrf st))).
    { unfold get_by_twid. by rewrite Hbt, lookup_insert_eq. }
    exists r, x1, s, x2, name, u', (user_id first).
    do 5 (split; [done|]). split; [by rewrite Htr|]. split.
    { intros _. by exists first, rest, x3. }
    split; [done|]. intros [Hm _]. split; [by rewrite Hget|by rewrite (Hmx self true Hm)].
Qed.

(** X10. A [connect] after a [logout] logs the user in again.  [logout]
    cleared the remote id, so the users with the screen name of the
    settings are looked up, the id of the first one found is stored and
    entered in [by_twid], and [get_by_twid] of it returns this user. *)
Theorem logout_then_connect_looks_up_again self auth csrf st u :
  users st !! self = Some u ->
  fst (logout W self st) = Ok tt ->
  fst (connect W self auth csrf (snd (logout W self st))) = Ok tt ->
  exists (r : option Z) (x1 : Ext) (s : gmap string string) (x2 : Ext) (name : string)
         (first : TwitterUser) (rest : list TwitterUser) (x3 : Ext) (u' : User),
    get_user_identifier W
      (probe_client W (mkUser (mxid u) (logged_out (fields u)) None (username u)) auth csrf)
      (ext (snd (logout W self st))) = (Ok r, x1) /\
    get_settings W
      (ready_client W self (mkUser (mxid u) (logged_out (fields u)) None (username u))
                    auth csrf) x1 = (Ok s, x2) /\
    s !! "screen_name"%string = Some name /\
    lookup_users W
      (ready_client W self (mkUser (mxid u) (logged_out (fields u)) None (username u))
                    auth csrf) [name] x2 = (Ok (first :: rest), x3) /\
    users (snd (connect W self auth csrf (snd (logout W self st)))) !! self = Some u' /\
    twid (fields u') = Some (user_id first) /\
    calls (snd (connect W self auth csrf (snd (logout W self st)))) =
      calls (snd (logout W self st)) ++
        [CGetUserIdentifier (length (clients (snd (logout W self st))));
         CGetSettings (length (clients (snd (logout W self st))));
         CLookupUsers (length (clients (snd (logout W self st)))) [name]] /\
    by_twid (snd (connect W self auth csrf (snd (logout W self st)))) =
      <[user_id first := self]> (by_twid (snd (logout W self st))) /\
    get_by_twid (user_id first) (snd (connect W self auth csrf (snd (logout W self st)))) =
      (Ok (Some self), snd (connect W self auth csrf (snd (logout W self st)))).
Proof.
  intros Hu Hout Hin.
  destruct (logout_ok_inv self st u Hu Hout) as (Hu1 & _ & _).
  destruct (connect_ok_run self auth csrf _ _ Hu1 Hin)
    as (r & x1 & s & x2 & name & u' & Hp & Hs & Hn & Hu' & _ & _ & Hcase).
  destruct Hcase as [(Htr & _)|(_ & first & rest & x3 & Hl & Ht & Hbt & Hcalls)];
    [done|].
  exists r, x1, s, x2, name, first, rest, x3, u'.
  do 8 (split; [done|]).
  unfold get_by_twid. by rewrite Hbt, lookup_insert_eq.
Qed.

(** * [logout] and the lookup by remote id *)

Lemma get_by_twid_miss_found (t : Z) st m (row : DBUser) :
  by_twid st !! t = None ->
  db_find_twid t (db st) = Some (m, row) ->
  fst (get_by_twid t st) = Ok (Some (length (users st))).
Proof.
  intros Hc Hf. unfold get_by_twid. rewrite Hc.
  rewrite (db_get_by_twid_some _ _ _ _ _ Hf).
  destruct st as [us cs bm bt db0 x cl]. unfold add_to_cache.
  mexec Hc; done.
Qed.

(** C4, as the code has it.  After a [logout] that returns, on a user
    bound to the remote id [r]: [is_logged_in] gives a falsy value and
    [by_twid] has no entry for [r].  [get_by_twid r] then asks the
    database: it finds nothing exactly when no other persisted record is
    bound to [r], and otherwise it makes a user from such a record and
    returns it. *)
Theorem logout_then_not_logged_in_entry_removed self st u (r : Z) :
  users st !! self = Some u ->
  twid (fields u) = Some r ->
  fst (logout W self st) = Ok tt ->
  (exists v, fst (is_logged_in W self (snd (logout W self st))) = Ok v /\ truthy v = false) /\
  by_twid (snd (logout W self st)) !! r = None /\
  (fst (get_by_twid r (snd (logout W self st))) = Ok None <->
   (forall m row, db st !! m = Some row -> twid row = Some r -> m = mxid u)) /\
  (forall m row, db st !! m = Some row -> twid row = Some r -> m <> mxid u ->
     exists o : uref,
       fst (get_by_twid r (snd (logout W self st))) = Ok (Some o) /\ o <> self).
Proof.
  intros Hu Ht Hok.
  destruct (logout_ok_inv _ _ _ Hu Hok) as (Hu' & Hbt & Hdb).
  rewrite Ht in Hbt.
  assert (by_twid (snd (logout W self st)) !! r = None) as Hgone
    by (rewrite Hbt; apply lookup_delete_eq).
  assert (Hother : forall m row, db st !! m = Some row -> twid row = Some r -> m <> mxid u ->
            fst (get_by_twid r (snd (logout W self st))) =
              Ok (Some (length (users (snd (logout W self st)))))).
  { intros m row Hm Hr Hne.
    assert (db (snd (logout W self st)) !! m = Some row) as Hm'
      by (by rewrite Hdb, lookup_insert_ne).
    destruct (db_find_twid_is_Some r _ m row Hm' Hr) as [[m' row'] Hf].
    by apply (get_by_twid_miss_found _ _ m' row'). }
  split; [|split; [done|split]].
  - exists VNone. split; [|done].
    by rewrite (is_logged_in_no_client _ _ _ Hu' eq_refl).
  - split.
    + intros Hnone m row Hm Hr.
      destruct (decide (m = mxid u)) as [|Hne]; [done|].
      rewrite (Hother m row Hm Hr Hne) in Hnone. discriminate Hnone.
    + intros Huniq. unfold get_by_twid. rewrite Hgone. unfold bind at 1, db_get_by_twid.
      rewrite db_find_twid_None; [done|].
      intros m row Hm Hr. rewrite Hdb in Hm.
      apply lookup_insert_Some in Hm as [[_ <-]|[Hne Hm]]; [done|].
      by apply Hne, eq_sym, (Huniq m row).
  - intros m row Hm Hr Hne. eexists. split; [by apply (Hother m row)|].
    apply lookup_lt_Some in Hu'. lia.
Qed.

(** * A [connect] that stops before the save *)

Ltac use_call H :=
  match type of H with
  | ?f W _ _ = ?v =>
      match goal with
      | |- context [f W ?a ?y] => change (f W a y = v) in H; rewrite H
      end
  | ?f W _ _ _ = ?v =>
      match goal with
      | |- context [f W ?a ?n ?y] => change (f W a n y = v) in H; rewrite H
      end
  end.

Ltac mcall_with H := rewrite bind_call; sred; use_call H; sred.

Ltac idle_handle Hu :=
  split; [reflexivity|]; sred;
  do 3 (split; [reflexivity|]);
  split; [eexists; split; [reflexivity|done]|];
  unfold is_live; sred; by rewrite lookup_snoc.

(** X9. [connect] is not all-or-nothing.  When the probe returns and then,
    before the save, the request for the settings raises, or the settings
    have no ["screen_name"] ([KeyError]), or the lookup raises, or the
    lookup finds nobody ([IndexError]), [connect] raises that error and
    the user is left holding the new handle, which is not running; its
    columns, both registries and the database are as before. *)
Theorem connect_raises_before_save self auth csrf st u (r : option Z) (x1 : Ext) :
  users st !! self = Some u ->
  get_user_identifier W (probe_client W u auth csrf) (ext st) = (Ok r, x1) ->
  (forall e x2,
     get_settings W (ready_client W self u auth csrf) x1 = (Raise e, x2) ->
     left_with_idle_handle W self auth csrf st u e) /\
  (forall s x2,
     get_settings W (ready_client W self u auth csrf) x1 = (Ok s, x2) ->
     s !! "screen_name"%string = None ->
     left_with_idle_handle W self auth csrf st u (KeyError "screen_name")) /\
  (forall s x2 name e x3,
     get_settings W (ready_client W self u auth csrf) x1 = (Ok s, x2) ->
     s !! "screen_name"%string = Some name ->
     truthy_int (twid (fields u)) = false ->
     lookup_users W (ready_client W self u auth csrf) [name] x2 = (Raise e, x3) ->
     left_with_idle_handle W self auth csrf st u e) /\
  (forall s x2 name x3,
     get_settings W (ready_client W self u auth csrf) x1 = (Ok s, x2) ->
     s !! "screen_name"%string = Some name ->
     truthy_int (twid (fields u)) = false ->
     lookup_users W (ready_client W self u auth csrf) [name] x2 = (Ok [], x3) ->
     left_with_idle_handle W self auth csrf st u IndexError).
Proof.
  intros Hu Hp. mstart st Hu. cbn [ext] in Hp.
  unfold left_with_idle_handle.
  split; [|split; [|split]].
  - intros e x2 Hs.
    unfold connect, update, db_save, self_client, with_client, with_user.
    repeat mstep Hu. mcall_with Hp. repeat mstep Hu. mcall_with Hs.
    idle_handle Hu.
  - intros s x2 Hs Hk.
    unfold connect, update, db_save, self_client, with_client, with_user.
    repeat mstep Hu. mcall_with Hp. repeat mstep Hu. mcall_with Hs. rewrite Hk.
    repeat mstep Hu. mfinish. idle_handle Hu.
  - intros s x2 name e x3 Hs Hk Htr Hl.
    unfold connect, update, db_save, self_client, with_client, with_user.
    repeat mstep Hu. mcall_with Hp. repeat mstep Hu. mcall_with Hs. rewrite Hk.
    repeat mstep Hu. unfold when. rewrite Htr. cbn [negb].
    repeat mstep Hu. mcall_with Hl. idle_handle Hu.
  - intros s x2 name x3 Hs Hk Htr Hl.
    unfold connect, update, db_save, self_client, with_client, with_user.
    repeat mstep Hu. mcall_with Hp. repeat mstep Hu. mcall_with Hs. rewrite Hk.
    repeat mstep Hu. unfold when. rewrite Htr. cbn [negb].
    repeat mstep Hu. mcall_with Hl. repeat mstep Hu. mfinish. idle_handle Hu.
Qed.

End Proofs.

(** * The properties on the concrete world *)

Local Open Scope string_scope.

Lemma users_one_user : users one_user !! 0%nat = Some fresh_user.
Proof. vm_compute. reflexivity. Qed.

Lemma users_connected : users connected !! 0%nat = Some connected_user.
Proof. vm_compute. reflexivity. Qed.

Lemma users_zero_bound : users zero_bound !! 0%nat = Some zero_user.
Proof. vm_compute. reflexivity. Qed.

Lemma handle_ok_connected : handle_ok connected connected_user.
Proof. eexists. vm_compute. reflexivity. Qed.

Lemma db_connected :
  db connected = {[ "@u1:example.org" := fields connected_user ]}.
Proof. vm_compute. reflexivity. Qed.

(** ** C1 *)

Lemma logout_release_fails_soft_counterexample :
  ~ logout_release_fails_soft (example_world false) 0%nat connected.
Proof.
  intros H.
  destruct (H connected_user puppet_555 [] 555) as (Hgone & _);
    [vm_compute; reflexivity ..|].
  vm_compute in Hgone. discriminate Hgone.
Qed.

Lemma logout_release_witness :
  fst (logout (example_world true) 0%nat connected) = Ok tt /\
  fst (logout (example_world false) 0%nat connected) = Raise (RemoteError "switch_mxid").
Proof.
  split.
  - eapply (proj1 (proj2 (logout_release_then_clear_or_propagate
                     (example_world true) 0%nat connected connected_user puppet_555 []
                     users_connected handle_ok_connected eq_refl eq_refl))).
    reflexivity.
  - eapply (proj2 (proj2 (logout_release_then_clear_or_propagate
                     (example_world false) 0%nat connected connected_user puppet_555 []
                     users_connected handle_ok_connected eq_refl eq_refl))).
    reflexivity.
Defined.

(** ** C2 *)

Lemma stop_clears_handle_counterexample : ~ stop_clears_handle 0%nat connected.
Proof.
  intros H.
  destruct (H connected_user 0%nat) as (u' & Hu' & Hc); [vm_compute; reflexivity ..|].
  vm_compute in Hu'. injection Hu' as <-. discriminate Hc.
Qed.

Lemma stop_witness :
  fst (stop 0%nat connected) = Ok tt /\
  stop 0%nat (snd (stop 0%nat connected)) = (Ok tt, snd (stop 0%nat connected)).
Proof.
  destruct (stop_keeps_handle_and_is_idempotent 0%nat connected connected_user
              users_connected handle_ok_connected) as (H1 & _ & _ & _ & H5).
  split; assumption.
Defined.

(** ** C3 *)


(** ** C4 *)

Lemma logout_then_remote_not_found_counterexample :
  ~ logout_then_remote_not_found (example_world true) 1%nat two_bound.
Proof.
  intros H.
  edestruct H as (_ & Hnone); [vm_compute; reflexivity ..|].
  vm_compute in Hnone. discriminate Hnone.
Qed.

Lemma logout_then_not_logged_in_witness :
  (by_twid (snd (logout (example_world true) 0%nat connected)) !! 555 = None /\
   fst (get_by_twid 555 (snd (logout (example_world true) 0%nat connected))) = Ok None) /\
  exists o : uref,
    fst (get_by_twid 555 (snd (logout (example_world true) 1%nat two_bound))) = Ok (Some o) /\
    o <> 1%nat.
Proof.
  split.
  - destruct (logout_then_not_logged_in_entry_removed (example_world true) 0%nat connected
                connected_user 555) as (_ & Hgone & Hiff & _).
    + vm_compute. reflexivity.
    + reflexivity.
    + vm_compute. reflexivity.
    + split; [exact Hgone|]. apply Hiff.
      intros m row Hm _. rewrite db_connected in Hm.
      apply lookup_singleton_Some in Hm as [<- _]. reflexivity.
  - edestruct (logout_then_not_logged_in_entry_removed (example_world true) 1%nat two_bound)
      as (_ & _ & _ & Hother).
    + vm_compute. reflexivity.
    + reflexivity.
    + vm_compute. reflexivity.
    + apply (Hother "@u1:example.org" (fields connected_user)).
      * vm_compute. reflexivity.
      * reflexivity.
      * discriminate.
Defined.

(** ** C5 *)



(** ** C6 *)

Lemma get_by_mxid_witness :
  fst (get_by_mxid "@u1:example.org" true empty_state) = Ok (Some 0%nat) /\
  get_by_mxid "@u1:example.org" false one_user = (Ok (Some 0%nat), one_user).
Proof.
  destruct (get_by_mxid_returns_identical_object "@u1:example.org" true empty_state)
    as (_ & _ & Hnew & _ & Hagain).
  split.
  - apply Hnew; vm_compute; reflexivity.
  - apply (Hagain 0%nat false). vm_compute. reflexivity.
Defined.

(** ** C7 *)

Lemma connect_bound_id_and_same_object_counterexample :
  ~ connect_keeps_bound_remote_id (example_world true) 0%nat None None zero_bound /\
  ~ connect_resolves_to_same_object (example_world true) 0%nat None None two_bound.
Proof.
  split.
  - intros H.
    destruct (H zero_user 0) as (u' & Hu' & Ht); [vm_compute; reflexivity ..|].
    vm_compute in Hu'. injection Hu' as <-. discriminate Ht.
  - intros H.
    destruct (H connected_user) as (u' & t & o & Hu' & Ht & Htw & Hmx);
      [vm_compute; reflexivity ..|].
    vm_compute in Hu'. injection Hu' as <-. injection Ht as <-.
    vm_compute in Htw, Hmx. injection Htw as <-. discriminate Hmx.
Qed.

Lemma connect_binds_first_found_witness :
  exists t : Z, get_by_twid t connected = (Ok (Some 0%nat), connected).
Proof.
  destruct (connect_binds_first_found_when_falsy (example_world true) 0%nat
              (Some "good") (Some "csrf") one_user fresh_user users_one_user)
    as (r & x1 & s & x2 & name & u' & t & _ & _ & _ & _ & _ & _ & Hfalsy & _).
  - vm_compute. reflexivity.
  - destruct (Hfalsy eq_refl) as (first & rest & x3 & _ & _ & _ & _ & Hget).
    exists t. exact Hget.
Defined.

(** ** C8 *)

Lemma handle_message_witness :
  exists tail,
    calls (snd (handle_message (example_world true) 0%nat example_message connected)) =
      (calls connected ++ CPortalGetByTwid "C1" (Some 555) "ONE_TO_ONE" :: tail)%list /\
    tail = [CCreateMatrixRoom (mkPortal "C1" (Some 555) "ONE_TO_ONE" None) 0%nat
                              (mkConversation "C1" "ONE_TO_ONE");
            CHandleTwitterMessage (mkPortal "C1" (Some 555) "ONE_TO_ONE" None) 0%nat
                                  "hello" "r1"].
Proof.
  destruct (handle_message_resolves_materializes_forwards (example_world true) 0%nat
              example_message connected connected_user users_connected)
    as (tail & Hcalls & _ & _ & Hp).
  exists tail. split; [exact Hcalls|].
  destruct (Hp (mkPortal "C1" (Some 555) "ONE_TO_ONE" None) [] eq_refl)
    as (_ & _ & Hroom & _).
  apply (Hroom eq_refl ["C1"]). reflexivity.
Defined.

(** The same event delivered twice: the room is made once, the message
    and its request id are handed over both times. *)
Example handle_message_twice :
  calls (snd (handle_message (example_world true) 0%nat example_message
           (snd (handle_message (example_world true) 0%nat example_message connected)))) =
  (calls connected ++
    [CPortalGetByTwid "C1" (Some 555) "ONE_TO_ONE";
     CCreateMatrixRoom (mkPortal "C1" (Some 555) "ONE_TO_ONE" None) 0%nat
                       (mkConversation "C1" "ONE_TO_ONE");
     CHandleTwitterMessage (mkPortal "C1" (Some 555) "ONE_TO_ONE" None) 0%nat "hello" "r1";
     CPortalGetByTwid "C1" (Some 555) "ONE_TO_ONE";
     CHandleTwitterMessage (mkPortal "C1" (Some 555) "ONE_TO_ONE" (Some "!C1")) 0%nat
                           "hello" "r1"])%list.
Proof. vm_compute. reflexivity. Qed.

(** ** C9 *)

Lemma all_logged_in_witness :
  exists res, fst (all_logged_in connected) = Ok res /\ res !! 0%nat = Some 0%nat.
Proof.
  destruct (all_logged_in_prefers_cached connected) as (res & Hres & _ & _ & Hidx).
  exists res. split; [exact Hres|].
  destruct (Hidx 0%nat "@u1:example.org" (fields connected_user)) as (y & Hy & _ & Hc & _).
  - vm_compute. reflexivity.
  - transitivity (Some y); [exact Hy|]. f_equal. apply Hc. vm_compute. reflexivity.
Defined.

(** ** C10 *)

Lemma is_logged_in_witness :
  is_logged_in (example_world true) 0%nat one_user = (Ok VNone, one_user) /\
  fst (is_logged_in expired_world 0%nat connected) = Ok (VBool false).
Proof.
  split.
  - apply (proj1 (is_logged_in_none_and_never_raises (example_world true) 0%nat one_user)
             fresh_user); vm_compute; reflexivity.
  - eapply (proj2 (proj2 (proj2 (is_logged_in_none_and_never_raises expired_world 0%nat
                                   connected)))).
    + apply users_connected.
    + reflexivity.
    + vm_compute. reflexivity.
    + vm_compute. reflexivity.
Defined.

(** ** The further properties *)

Lemma update_witness :
  exists u',
    fst (update 0%nat connected) = Ok tt /\
    db (snd (update 0%nat connected)) !! "@u1:example.org" = Some (fields u').
Proof.
  destruct (update_saves_current_columns 0%nat connected connected_user
              users_connected handle_ok_connected) as (u' & H1 & _ & _ & H4 & _).
  exists u'. split; [exact H1|exact H4].
Defined.

Lemma init_cls_witness :
  fst (try_connect (example_world true) 0%nat one_user) = Ok tt /\
  exists tasks, fst (init_cls (example_world true) connected) = Ok tasks /\
                length tasks = 1%nat.
Proof.
  destruct (init_cls_connections_never_raise (example_world true) connected)
    as (Htry & logged_in & tasks & _ & Hinit & _ & Hlen & _).
  split; [apply Htry|].
  exists tasks. split; [by rewrite Hinit|]. rewrite Hlen. vm_compute. reflexivity.
Defined.

Lemma get_by_twid_witness :
  fst (get_by_twid 555 restarted) = Ok (Some 0%nat) /\
  get_by_twid 555 (snd (get_by_twid 555 restarted)) =
    (Ok (Some 0%nat), snd (get_by_twid 555 restarted)).
Proof.
  destruct (get_by_twid_loads_and_caches 555 restarted) as (_ & _ & Hload).
  destruct (Hload "@u1:example.org" (fields connected_user))
    as (m & row & _ & _ & Hres & _ & _ & _ & _ & Hagain).
  - vm_compute. reflexivity.
  - vm_compute. reflexivity.
  - reflexivity.
  - split; [exact Hres|]. apply Hagain. discriminate.
Defined.

Lemma add_to_cache_witness :
  get_by_twid 555 (snd (add_to_cache 0%nat connected)) =
    (Ok (Some 0%nat), snd (add_to_cache 0%nat connected)).
Proof.
  destruct (add_to_cache_then_found 0%nat connected connected_user users_connected)
    as (_ & _ & _ & _ & _ & Htw & _).
  apply Htw; [reflexivity|discriminate].
Defined.

Lemma logout_without_real_puppet_witness :
  fst (logout (example_world true) 0%nat one_user) = Ok tt.
Proof.
  eapply (proj1 (logout_without_real_puppet_clears (example_world true) 0%nat one_user
                   fresh_user None [] users_one_user _ _ _)).
  Unshelve.
  - exact I.
  - vm_compute. reflexivity.
  - intros p Hp. discriminate Hp.
Defined.

Lemma logout_puppet_lookup_raises_witness :
  fst (logout puppet_down_world 0%nat connected) = Raise (RemoteError "puppet") /\
  users (snd (logout puppet_down_world 0%nat connected)) = users connected.
Proof.
  destruct (logout_puppet_lookup_raises puppet_down_world 0%nat connected connected_user
              (RemoteError "puppet") [] users_connected handle_ok_connected eq_refl)
    as (H1 & H2 & _).
  split; [exact H1|exact H2].
Defined.

Lemma logout_touches_only_its_own_witness :
  by_mxid (snd (logout (example_world true) 0%nat connected)) = by_mxid connected.
Proof.
  exact (proj1 (logout_touches_only_its_own (example_world true) 0%nat connected
                  connected_user users_connected)).
Defined.

Lemma connect_success_witness :
  exists u',
    users connected !! 0%nat = Some u' /\
    db connected !! "@u1:example.org" = Some (fields u').
Proof.
  destruct (connect_success_installs_and_saves (example_world true) 0%nat
              (Some "good") (Some "csrf") one_user fresh_user users_one_user)
    as (u' & a' & H1 & _ & _ & _ & _ & _ & _ & _ & _ & _ & H11).
  - vm_compute. reflexivity.
  - exists u'. split; [exact H1|exact H11].
Defined.

Lemma connect_raises_before_save_witness :
  left_with_idle_handle no_name_world 0%nat (Some "good") None one_user fresh_user
    (KeyError "screen_name").
Proof.
  destruct (connect_raises_before_save no_name_world 0%nat (Some "good") None one_user
              fresh_user (Some 555) [] users_one_user) as (_ & Hkey & _).
  - vm_compute. reflexivity.
  - apply (Hkey ∅ []).
    + vm_compute. reflexivity.
    + vm_compute. reflexivity.
Defined.

Lemma logout_then_connect_witness :
  exists first : TwitterUser,
    get_by_twid (user_id first)
      (snd (connect (example_world true) 0%nat (Some "good") (Some "csrf")
              (snd (logout (example_world true) 0%nat connected)))) =
    (Ok (Some 0%nat),
     snd (connect (example_world true) 0%nat (Some "good") (Some "csrf")
            (snd (logout (example_world true) 0%nat connected)))).
Proof.
  destruct (logout_then_connect_looks_up_again (example_world true) 0%nat
              (Some "good") (Some "csrf") connected connected_user users_connected)
    as (r & x1 & s & x2 & name & first & rest & x3 & u' & _ & _ & _ & _ & _ & _ & _ & _ & H).
  - vm_compute. reflexivity.
  - vm_compute. reflexivity.
  - exists first. exact H.
Defined.

Lemma stop_then_connect_witness :
  is_live (snd (connect (example_world true) 0%nat None None (snd (stop 0%nat connected))))
          "@u1:example.org" 1%nat = true /\
  is_live (snd (connect (example_world true) 0%nat None None (snd (stop 0%nat connected))))
          "@u1:example.org" 0%nat = false.
Proof.
  destruct (stop_then_connect_one_live_handle (example_world true) 0%nat None None
              connected connected_user users_connected handle_ok_connected)
    as (Hlive & _).
  - intros [|c] Hc; [reflexivity|]. vm_compute in Hc. discriminate Hc.
  - vm_compute. reflexivity.
  - split.
    + apply Hlive. reflexivity.
    + destruct (is_live _ _ 0%nat) eqn:E; [|reflexivity].
      apply Hlive in E. discriminate E.
Defined.

Lemma is_logged_in_probe_witness :
  fst (is_logged_in (example_world true) 0%nat connected) = Ok (VBool true).
Proof.
  destruct (is_logged_in_probe_and_frame (example_world true) 0%nat connected) as (Hp & _).
  edestruct Hp as [H _].
  - apply users_connected.
  - reflexivity.
  - vm_compute. reflexivity.
  - vm_compute. reflexivity.
  - exact H.
Defined.

Lemma handle_conversation_update_witness :
  exists tail,
    calls (snd (handle_conversation_update (example_world true) 0%nat
                  (mkConversation "C1" "ONE_TO_ONE") connected)) =
      (calls connected ++ tail)%list /\
    tail = [CPortalGetByTwid "C1" (Some 555) "ONE_TO_ONE";
            CPortalUpdateInfo (mkPortal "C1" (Some 555) "ONE_TO_ONE" None)
                              (mkConversation "C1" "ONE_TO_ONE")].
Proof.
  destruct (handle_conversation_update_forwards (example_world true) 0%nat
              (mkConversation "C1" "ONE_TO_ONE") connected connected_user users_connected)
    as (tail & Hcalls & _ & _ & Hok & _).
  exists tail. split; [exact Hcalls|].
  apply (Hok (mkPortal "C1" (Some 555) "ONE_TO_ONE" None) []). reflexivity.
Defined.

Lemma by_mxid_stays_well_formed_witness : by_mxid_wf one_user /\ by_mxid_wf connected.
Proof.
  assert (by_mxid_wf empty_state) as H0.
  { intros m r Hr. vm_compute in Hr. discriminate Hr. }
  assert (by_mxid_wf one_user) as H1.
  { exact (proj1 (by_mxid_stays_well_formed (example_world true) empty_state H0)
             "@u1:example.org" true). }
  split; [exact H1|].
  exact (proj1 (proj2 (proj2 (proj2
           (by_mxid_stays_well_formed (example_world true) one_user H1))))
           0%nat (Some "good") (Some "csrf")).
Defined.

Lemma all_logged_in_then_lookups_witness :
  exists res,
    fst (all_logged_in connected) = Ok res /\
    fst (all_logged_in (snd (all_logged_in connected))) = Ok res.
Proof.
  destruct (all_logged_in_then_lookups_agree connected) as (res & H1 & _ & H3).
  exists res. split; [exact H1|exact H3].
Defined.

Lemma logout_drops_entry_witness :
  by_twid (snd (logout (example_world true) 1%nat shared_remote_id)) !! 555 = None /\
  users (snd (logout (example_world true) 1%nat shared_remote_id)) !! 0%nat =
    users shared_remote_id !! 0%nat.
Proof.
  eapply (logout_drops_entry_of_any_owner (example_world true) 1%nat shared_remote_id
            _ 555 0%nat).
  - vm_compute. reflexivity.
  - reflexivity.
  - vm_compute. reflexivity.
  - discriminate.
  - vm_compute. reflexivity.
Defined.

Local Close Scope string_scope.
